(** * Learning-roadmap Lambda: a shallow embedding and its properties

    The development follows
    [src/lambda-functions/task2-bedrock-ai-lambda/lambda_function.py]:
    the Python primitives the handler relies on come first (strings, values,
    numbers, exceptions), then the functions of the module in source order,
    then the statements proved about them.

    Conventions.
    - A Python [str] is a [string]; each [ascii] stands for one code point
      below 256.
    - Integers are [Z]; a [float] is a [spec_float] (sign, mantissa,
      exponent), which covers every IEEE-754 binary64 value.
    - A [dict] is an association list in insertion order; its keys are
      distinct, and lookup takes the first binding of a key.
    - [json.loads], [json.dumps], the clock, the Bedrock client and the
      wording of interpreter-raised exceptions are library code: they are
      fields of an environment [Env] the functions are parameterised by.
    - Output written with [print] is not modelled. *)

From Stdlib Require Import String Ascii List ZArith QArith Bool Lia.
From Stdlib Require Import SpecFloat DecimalString.
Import ListNotations.

#[local] Set Warnings "-register-all".
Local Open Scope string_scope.
Local Open Scope Z_scope.

(* ================================================================= *)
(** ** Python string primitives *)

(** The double-quote character, and a string put between two of them. *)
Definition dq : string := String "034"%char EmptyString.

Definition quoted (s : string) : string := dq ++ s ++ dq.

(** [str.isspace] on one code point below 256: TAB..CR, FS..US, SPACE,
    NEL (0x85) and NBSP (0xA0). *)
Definition isspace (c : ascii) : bool :=
  let n := nat_of_ascii c in
  ((9 <=? n)%nat && (n <=? 13)%nat)
  || ((28 <=? n)%nat && (n <=? 32)%nat)
  || (n =? 133)%nat || (n =? 160)%nat.

(** [s.lstrip()] *)
Fixpoint lstrip (s : string) : string :=
  match s with
  | EmptyString => EmptyString
  | String c s' => if isspace c then lstrip s' else s
  end.

(** [s.rstrip()]: a character is dropped when it is white space and
    everything after it has been dropped. *)
Fixpoint rstrip (s : string) : string :=
  match s with
  | EmptyString => EmptyString
  | String c s' =>
      match rstrip s' with
      | EmptyString => if isspace c then EmptyString else String c EmptyString
      | r => String c r
      end
  end.

(** [s.strip()] *)
Definition strip (s : string) : string := lstrip (rstrip s).

(** White space only; white space at the front; white space at the back. *)
Fixpoint all_space (s : string) : bool :=
  match s with
  | EmptyString => true
  | String c s' => isspace c && all_space s'
  end.

Definition starts_with_space (s : string) : bool :=
  match s with
  | EmptyString => false
  | String c _ => isspace c
  end.

Fixpoint ends_with_space (s : string) : bool :=
  match s with
  | EmptyString => false
  | String c EmptyString => isspace c
  | String _ s' => ends_with_space s'
  end.

(** [s[n:]] for [0 <= n]. *)
Fixpoint drop (n : nat) (s : string) : string :=
  match n, s with
  | O, _ => s
  | S _, EmptyString => EmptyString
  | S n', String _ s' => drop n' s'
  end.

(** [s[:n]] for [0 <= n]. *)
Fixpoint take (n : nat) (s : string) : string :=
  match n, s with
  | O, _ => EmptyString
  | S _, EmptyString => EmptyString
  | S n', String c s' => String c (take n' s')
  end.

(** [s[:-1]] *)
Fixpoint drop_last (s : string) : string :=
  match s with
  | EmptyString => EmptyString
  | String c EmptyString => EmptyString
  | String c s' => String c (drop_last s')
  end.

(** [sub in s] *)
Fixpoint str_contains (sub s : string) : bool :=
  prefix sub s
  || match s with
     | EmptyString => false
     | String _ s' => str_contains sub s'
     end.

(** Offset of the first occurrence of [sub] in [s], if any. *)
Fixpoint find_at (sub s : string) : option nat :=
  if prefix sub s then Some O
  else match s with
       | EmptyString => None
       | String _ s' => option_map S (find_at sub s')
       end.

(** How Python brings a slice or search index into [0 .. len]: a negative
    index counts from the end, and what still falls outside is clamped. *)
Definition adjust_index (len i : Z) : Z :=
  if i <? 0 then Z.max (i + len) 0 else Z.min i len.

(** [s.find(sub, start)]; [s.find(sub)] is [str_find s sub 0]. A negative
    [start] counts from the end; past the end the answer is [-1]. *)
Definition str_find (s sub : string) (start : Z) : Z :=
  let len := Z.of_nat (String.length s) in
  let start := if start <? 0 then Z.max (start + len) 0 else start in
  if len <? start then -1
  else match find_at sub (drop (Z.to_nat start) s) with
       | Some k => start + Z.of_nat k
       | None => -1
       end.

(** [s[start:stop]] *)
Definition str_slice (s : string) (start stop : Z) : string :=
  let len := Z.of_nat (String.length s) in
  let lo := adjust_index len start in
  let hi := adjust_index len stop in
  take (Z.to_nat (hi - lo)) (drop (Z.to_nat lo) s).

(* ================================================================= *)
(** ** Python values *)

(** The values an event, a model reply or a response is made of: what
    [json.loads] produces and [json.dumps] accepts. *)
Inductive pyvalue : Type :=
| VNone
| VBool (b : bool)
| VInt (z : Z)
| VFloat (f : spec_float)
| VStr (s : string)
| VList (l : list pyvalue)
| VDict (d : list (string * pyvalue)).

Definition dict : Type := list (string * pyvalue).

(** [d[k]] when the key is there. *)
Fixpoint dict_get (d : dict) (k : string) : option pyvalue :=
  match d with
  | [] => None
  | (k', v) :: d' => if String.eqb k k' then Some v else dict_get d' k
  end.

(** [d.get(k, default)] *)
Definition dict_get_default (d : dict) (k : string) (default : pyvalue) : pyvalue :=
  match dict_get d k with
  | Some v => v
  | None => default
  end.

(** [k in d] *)
Definition dict_has_key (d : dict) (k : string) : bool :=
  existsb (fun kv => String.eqb k (fst kv)) d.

(** [bool(v)], the truth value [not v] negates. *)
Definition truthy (v : pyvalue) : bool :=
  match v with
  | VNone => false
  | VBool b => b
  | VInt z => negb (z =? 0)
  | VFloat (S754_zero _) => false
  | VFloat _ => true
  | VStr EmptyString => false
  | VStr _ => true
  | VList [] => false
  | VList _ => true
  | VDict [] => false
  | VDict _ => true
  end.

(** [isinstance(v, list)] *)
Definition is_list (v : pyvalue) : bool :=
  match v with
  | VList _ => true
  | _ => false
  end.

(* ================================================================= *)
(** ** Numbers *)

(** What passes [isinstance(v, (int, float))]. *)
Inductive number : Type :=
| NInt (z : Z)
| NFloat (f : spec_float).

(** [bool] is a subclass of [int]: [True] is [1] and [False] is [0]. *)
Definition as_number (v : pyvalue) : option number :=
  match v with
  | VBool b => Some (NInt (if b then 1 else 0))
  | VInt z => Some (NInt z)
  | VFloat f => Some (NFloat f)
  | _ => None
  end.

(** [isinstance(v, (int, float))] *)
Definition is_number (v : pyvalue) : bool :=
  match as_number v with
  | Some _ => true
  | None => false
  end.

(** The integer [(-1)^s * m]. *)
Definition signed (s : bool) (m : positive) : Z :=
  if s then Z.neg m else Z.pos m.

(** [x < c] for a float [x] and an int [c]. Python compares the two exactly:
    NaN is below nothing, and [(-1)^s * m * 2^e < c] is decided over the
    integers after scaling by the power of two. *)
Definition float_lt_int (x : spec_float) (c : Z) : bool :=
  match x with
  | S754_nan => false
  | S754_infinity s => s
  | S754_zero _ => 0 <? c
  | S754_finite s m e =>
      if 0 <=? e then signed s m * 2 ^ e <? c
      else signed s m <? c * 2 ^ (- e)
  end.

(** [n < c] for an int literal [c]. *)
Definition num_lt (n : number) (c : Z) : bool :=
  match n with
  | NInt z => z <? c
  | NFloat x => float_lt_int x c
  end.

(** The mathematical value of a number, for stating properties: a rational,
    an infinity, or not a number. *)
Inductive extended : Type :=
| ENaN
| ENegInf
| EPosInf
| EFin (q : Q).

Definition float_value (x : spec_float) : extended :=
  match x with
  | S754_nan => ENaN
  | S754_infinity s => if s then ENegInf else EPosInf
  | S754_zero _ => EFin 0
  | S754_finite s m e =>
      if 0 <=? e then EFin (inject_Z (signed s m * 2 ^ e))
      else EFin (signed s m # Z.to_pos (2 ^ (- e)))
  end.

Definition number_value (n : number) : extended :=
  match n with
  | NInt z => EFin (inject_Z z)
  | NFloat x => float_value x
  end.

(** [x < c] and [c <= x] on extended values; both fail on NaN. *)
Definition below (x : extended) (c : Z) : Prop :=
  match x with
  | ENegInf => True
  | EFin q => (q < inject_Z c)%Q
  | _ => False
  end.

Definition at_least (x : extended) (c : Z) : Prop :=
  match x with
  | EPosInf => True
  | EFin q => (inject_Z c <= q)%Q
  | _ => False
  end.

(* ================================================================= *)
(** ** Exceptions and effects *)

Inductive exn_class : Type :=
| JSONDecodeError
| ValueError
| TypeError
| KeyError
| IndexError
| AttributeError
| ServiceError.

(** An exception: its class and [str(e)]. [ServiceError] stands for
    whatever the Bedrock client raises. *)
Record exn : Type := Exn { exn_kind : exn_class; exn_str : string }.

(** A computation that returns or raises. *)
Definition result (A : Type) : Type := (exn + A)%type.

(** One call of [bedrock_runtime.invoke_model]: its [modelId] and [body]. *)
Definition call : Type := (string * string)%type.

(** A computation that also talks to the model: the calls made, in order,
    and how it ended. *)
Definition M (A : Type) : Type := (list call * result A)%type.

Definition ret {A : Type} (a : A) : M A := ([], inr a).

Definition raise {A : Type} (e : exn) : M A := ([], inl e).

Definition bind {A B : Type} (m : M A) (k : A -> M B) : M B :=
  match m with
  | (log, inl e) => (log, inl e)
  | (log, inr a) => let (log', r) := k a in ((log ++ log')%list, r)
  end.

Definition lift {A : Type} (r : result A) : M A := ([], r).

(** Sequencing of computations that make no call. *)
Definition and_then {A B : Type} (r : result A) (k : A -> result B) : result B :=
  match r with
  | inl e => inl e
  | inr a => k a
  end.

(** [try: m  except Exception as e: h e] *)
Definition try_except {A : Type} (m : M A) (h : exn -> M A) : M A :=
  match m with
  | (log, inl e) => let (log', r) := h e in ((log ++ log')%list, r)
  | (log, inr a) => (log, inr a)
  end.

Notation "x <- m ;; k" := (bind m (fun x => k))
  (at level 61, m at next level, right associativity).

(** The library code around the module. *)
Record Env : Type := {
  (** [json.loads]: [inl msg] is a [JSONDecodeError] with [str(e) = msg]. *)
  json_loads : string -> string + pyvalue;
  (** [json.dumps] *)
  json_dumps : pyvalue -> string;
  (** [datetime.utcnow().isoformat()] at the one place a run reads the clock *)
  utcnow_isoformat : string;
  (** [bedrock_runtime.invoke_model(modelId=, body=)] followed by
      [response['body'].read()] *)
  invoke_model : string -> string -> result string;
  (** [str(e)] of an exception the interpreter raises about an operand *)
  builtin_message : exn_class -> pyvalue -> string
}.

(* ================================================================= *)
(** ** Operators on values that may raise *)

Section Operators.

Variable E : Env.

(** The exception the interpreter raises, of class [c], about [v]. *)
Definition builtin_error (c : exn_class) (v : pyvalue) : exn :=
  Exn c (builtin_message E c v).

(** [item in v] for a [str] item: a key of a dict, an element of a list
    (only a [str] equals a [str]), a substring of a [str]; anything else is
    not iterable. *)
Definition py_in (item : string) (v : pyvalue) : result bool :=
  match v with
  | VDict d => inr (dict_has_key d item)
  | VList l =>
      inr (existsb (fun x => match x with
                             | VStr s => String.eqb item s
                             | _ => false
                             end) l)
  | VStr s => inr (str_contains item s)
  | _ => inl (builtin_error TypeError v)
  end.

(** [v[k]] for a [str] key. *)
Definition getitem_key (v : pyvalue) (k : string) : result pyvalue :=
  match v with
  | VDict d =>
      match dict_get d k with
      | Some x => inr x
      | None => inl (builtin_error KeyError (VStr k))
      end
  | _ => inl (builtin_error TypeError v)
  end.

(** [v[i]] for an int index. The keys of a [dict] here are strings, so an
    int is never among them. *)
Definition getitem_index (v : pyvalue) (i : Z) : result pyvalue :=
  match v with
  | VList l =>
      let len := Z.of_nat (List.length l) in
      let j := if i <? 0 then i + len else i in
      if (j <? 0) || (len <=? j) then inl (builtin_error IndexError v)
      else match nth_error l (Z.to_nat j) with
           | Some x => inr x
           | None => inl (builtin_error IndexError v)
           end
  | VStr s =>
      let len := Z.of_nat (String.length s) in
      let j := if i <? 0 then i + len else i in
      if (j <? 0) || (len <=? j) then inl (builtin_error IndexError v)
      else inr (VStr (take 1 (drop (Z.to_nat j) s)))
  | VDict _ => inl (builtin_error KeyError (VInt i))
  | _ => inl (builtin_error TypeError v)
  end.

(** The strings of a list whose items are all [str], or else its first
    item that is not. *)
Fixpoint all_strings (l : list pyvalue) : pyvalue + list string :=
  match l with
  | [] => inr []
  | VStr s :: l' =>
      match all_strings l' with
      | inr ss => inr (s :: ss)
      | inl v => inl v
      end
  | v :: _ => inl v
  end.

(** [sep.join(l)] *)
Definition str_join (sep : string) (l : list pyvalue) : result string :=
  match all_strings l with
  | inr ss => inr (String.concat sep ss)
  | inl v => inl (builtin_error TypeError v)
  end.

End Operators.

(* ================================================================= *)
(** ** The module, in source order *)

(** Model configuration. [TEMPERATURE] is the binary64 nearest to 0.3,
    [5404319552844595 * 2^-54]. *)
Definition MODEL_ID : string := "anthropic.claude-3-sonnet-20240229-v1:0".

Definition TEMPERATURE : spec_float := S754_finite false 5404319552844595 (-54).

Definition MAX_TOKENS : Z := 4096.

(** The two fence delimiters [parse_ai_response] looks for. *)
Definition fence : string := "```".

Definition fence_json : string := "```json".

(** [determine_user_level] *)
Definition determine_user_level (total_solved : number) : string :=
  if num_lt total_solved 50 then "Beginner"
  else if num_lt total_solved 200 then "Intermediate"
  else "Advanced".

Definition nl : string := String "010"%char EmptyString.

(** A line [  "key": "text"] of the format shown to the model. *)
Definition sample (indent key text : string) : string :=
  indent ++ quoted key ++ ": " ++ quoted text.

(** The f-string of [build_prompt], line by line. *)
Definition prompt_text (user_level topics_str : string) : string :=
  String.concat nl
    [ "You are an expert competitive programming mentor specializing in LeetCode preparation.";
      EmptyString;
      "User Profile:";
      "- Skill Level: " ++ user_level;
      "- Weak Topics: " ++ topics_str;
      EmptyString;
      "Task: Generate a structured 7-day learning roadmap to help this user improve their weak topics.";
      EmptyString;
      "Requirements:";
      "1. Focus on the weak topics provided";
      "2. Provide 2-3 specific problem recommendations per day";
      "3. Include topic-wise recommendations (which concepts to study)";
      "4. Provide learning resources (no full solutions, only conceptual guidance)";
      "5. Ensure progressive difficulty (start easier, build up)";
      "6. Include daily goals and milestones";
      EmptyString;
      "Return your response in the following JSON format:";
      "{";
      "  " ++ quoted "roadmap" ++ ": [";
      "    {";
      "      " ++ quoted "day" ++ ": 1,";
      sample "      " "focus_topic" "Topic name" ++ ",";
      sample "      " "daily_goal" "What to achieve today" ++ ",";
      "      " ++ quoted "problems" ++ ": [";
      "        {";
      sample "          " "title" "Problem name" ++ ",";
      sample "          " "difficulty" "Easy/Medium/Hard" ++ ",";
      sample "          " "key_concept" "Main concept to learn" ++ ",";
      sample "          " "approach_hint" "High-level approach (no code)";
      "        }";
      "      ],";
      "      " ++ quoted "study_resources" ++ ": [";
      "        " ++ quoted "Resource 1: Brief description" ++ ",";
      "        " ++ quoted "Resource 2: Brief description";
      "      ]";
      "    }";
      "  ],";
      sample "  " "overall_strategy" "Brief overview of the 7-day plan" ++ ",";
      sample "  " "success_metrics" "How to measure progress";
      "}";
      EmptyString;
      "Important: Return ONLY valid JSON, no additional text or markdown formatting." ].

(** Lines 214-223 of [parse_ai_response]: the candidate [json_str] cut out
    of the raw reply. *)
Definition extract_json_str (ai_response : string) : string :=
  if str_contains fence_json ai_response then
    let start := str_find ai_response fence_json 0 + 7 in
    let end_ := str_find ai_response fence start in
    strip (str_slice ai_response start end_)
  else if str_contains fence ai_response then
    let start := str_find ai_response fence 0 + 3 in
    let end_ := str_find ai_response fence start in
    strip (str_slice ai_response start end_)
  else strip ai_response.

Section Pipeline.

Variable E : Env.

(** [error_response] *)
Definition error_response (status_code : Z) (message : string) : pyvalue :=
  VDict
    [ ("statusCode", VInt status_code);
      ("body",
        VStr (json_dumps E
                (VDict [ ("error", VStr message);
                         ("timestamp", VStr (utcnow_isoformat E)) ]))) ].

(** [build_prompt]; joining the topics raises when one of them is no [str]. *)
Definition build_prompt (weak_topics : list pyvalue) (user_level : string)
  : result string :=
  match str_join E ", " weak_topics with
  | inl e => inl e
  | inr topics_str => inr (prompt_text user_level topics_str)
  end.

(** Lines 225-236 of [parse_ai_response]: the candidate is parsed and
    checked. Only a [JSONDecodeError] is caught and turned into a
    [ValueError]; the [ValueError] for the missing field and whatever the
    [in] test raises leave the function as they are. *)
Definition validate_json_str (json_str : string) : result pyvalue :=
  match json_loads E json_str with
  | inl msg => inl (Exn ValueError ("Invalid JSON response from AI: " ++ msg))
  | inr roadmap =>
      match py_in E "roadmap" roadmap with
      | inl e => inl e
      | inr false => inl (Exn ValueError "Response missing 'roadmap' field")
      | inr true => inr roadmap
      end
  end.

(** [parse_ai_response] *)
Definition parse_ai_response (ai_response : string) : result pyvalue :=
  let json_str := extract_json_str ai_response in
  validate_json_str json_str.

(** [parse_ai_response] on whatever [response_body['content'][0]['text']]
    holds. On a value that is no [str], the [in] test raises [TypeError]
    for [None], a [bool] or a number, and [.find] / [.strip] raise
    [AttributeError] for a list or a dict. *)
Definition parse_ai_response_value (ai_response : pyvalue) : result pyvalue :=
  match ai_response with
  | VStr s => parse_ai_response s
  | VList _ | VDict _ => inl (builtin_error E AttributeError ai_response)
  | _ => inl (builtin_error E TypeError ai_response)
  end.

(** [json.loads] where no handler converts its exception. *)
Definition loads (s : string) : result pyvalue :=
  match json_loads E s with
  | inl msg => inl (Exn JSONDecodeError msg)
  | inr v => inr v
  end.

(** The call of the model, recorded. *)
Definition call_model (model_id body : string) : M string :=
  ([(model_id, body)], invoke_model E model_id body).

(** The [request_body] of [generate_learning_roadmap]. *)
Definition request_body (prompt : string) : pyvalue :=
  VDict [ ("anthropic_version", VStr "bedrock-2023-05-31");
          ("max_tokens", VInt MAX_TOKENS);
          ("temperature", VFloat TEMPERATURE);
          ("messages",
            VList [ VDict [ ("role", VStr "user");
                            ("content", VStr prompt) ] ]) ].

(** [generate_learning_roadmap]; its handler logs and re-raises. *)
Definition generate_learning_roadmap (weak_topics : list pyvalue)
    (user_level : string) : M pyvalue :=
  try_except
    (prompt <- lift (build_prompt weak_topics user_level) ;;
     payload <- call_model MODEL_ID (json_dumps E (request_body prompt)) ;;
     response_body <- lift (loads payload) ;;
     content <- lift (getitem_key E response_body "content") ;;
     first <- lift (getitem_index E content 0) ;;
     ai_response <- lift (getitem_key E first "text") ;;
     roadmap <- lift (parse_ai_response_value ai_response) ;;
     ret roadmap)
    (fun e => raise e).

(** The body of the [try] in [lambda_handler]. After the two [isinstance]
    tests, [weak_topics] is a list and [total_solved] a number. *)
Definition lambda_handler_body (event : dict) : M pyvalue :=
  let weak_topics := dict_get_default event "weak_topics" (VList []) in
  let total_solved := dict_get_default event "total_solved" (VInt 0) in
  if negb (truthy weak_topics) then
    ret (error_response 400 "weak_topics is required and cannot be empty")
  else
    match weak_topics with
    | VList topics =>
        match as_number total_solved with
        | Some n =>
            let user_level := determine_user_level n in
            roadmap <- generate_learning_roadmap topics user_level ;;
            ret (VDict
                   [ ("statusCode", VInt 200);
                     ("body",
                       VStr (json_dumps E
                               (VDict
                                  [ ("message", VStr "Learning roadmap generated successfully");
                                    ("user_level", VStr user_level);
                                    ("total_solved", total_solved);
                                    ("weak_topics", weak_topics);
                                    ("roadmap", roadmap);
                                    ("generated_at", VStr (utcnow_isoformat E)) ]))) ])
        | None => ret (error_response 400 "total_solved must be a number")
        end
    | _ => ret (error_response 400 "weak_topics must be a list")
    end.

(** [lambda_handler]: the calls made to the model and the response. *)
Definition lambda_handler (event : dict) : list call * pyvalue :=
  match lambda_handler_body event with
  | (log, inr response) => (log, response)
  | (log, inl e) =>
      (log, error_response 500 ("Internal server error: " ++ exn_str e))
  end.

End Pipeline.

(* ================================================================= *)
(** ** The extraction rule as the specification words it *)

(** [sub] occurs in [s] at offset [i]. *)
Definition occurs_at (sub s : string) (i : nat) : Prop :=
  exists pre post, s = pre ++ sub ++ post /\ String.length pre = i.

Definition occurs (sub s : string) : Prop := exists i, occurs_at sub s i.

(** The first occurrence of [sub] in [s] is at [i]. *)
Definition first_occurrence (sub s : string) (i : nat) : Prop :=
  occurs_at sub s i /\ forall j, (j < i)%nat -> ~ occurs_at sub s j.

(** The first occurrence of [sub] in [s] at or after [from] is at [i]. *)
Definition next_occurrence (sub s : string) (from i : nat) : Prop :=
  (from <= i)%nat /\ occurs_at sub s i
  /\ forall j, (from <= j < i)%nat -> ~ occurs_at sub s j.

(** The text of [s] from offset [a] up to, not including, offset [b]. *)
Definition between (s : string) (a b : nat) : string := substring a (b - a) s.

(** The three ordered checks: a JSON-tagged fence and the next delimiter
    after it; else any fence and the next delimiter after it; else the
    whole reply. *)
Inductive extraction_rule (raw : string) : string -> Prop :=
| rule_json_fence (i j : nat) :
    first_occurrence fence_json raw i ->
    next_occurrence fence raw (i + String.length fence_json) j ->
    extraction_rule raw (strip (between raw (i + String.length fence_json) j))
| rule_any_fence (i j : nat) :
    ~ occurs fence_json raw ->
    first_occurrence fence raw i ->
    next_occurrence fence raw (i + String.length fence) j ->
    extraction_rule raw (strip (between raw (i + String.length fence) j))
| rule_no_fence :
    ~ occurs fence raw ->
    extraction_rule raw (strip raw).

(** A parsed reply that carries a top-level field [roadmap]. *)
Definition has_roadmap_field (v : pyvalue) : Prop :=
  exists d, v = VDict d /\ dict_has_key d "roadmap" = true.

(** [response[k]] and the keys of a response, for reading what the handler
    returned. *)
Definition response_field (response : pyvalue) (k : string) : option pyvalue :=
  match response with
  | VDict d => dict_get d k
  | _ => None
  end.

Definition response_keys (response : pyvalue) : list string :=
  match response with
  | VDict d => map fst d
  | _ => []
  end.

(* ================================================================= *)
(** ** A stand-in environment for the worked examples *)

(** One character of the inside of a JSON string literal, as [json.dumps]
    writes it: short escapes for quote, backslash and the usual control
    characters, a four-digit escape for what is not printable ASCII. *)
Definition hex_digit (n : nat) : string := substring n 1 "0123456789abcdef".

Definition json_escape_char (c : ascii) : string :=
  let backslash := String "092" EmptyString in
  let n := nat_of_ascii c in
  if (n =? 34)%nat || (n =? 92)%nat then backslash ++ String c EmptyString
  else if (n =? 10)%nat then backslash ++ "n"
  else if (n =? 13)%nat then backslash ++ "r"
  else if (n =? 9)%nat then backslash ++ "t"
  else if (n =? 8)%nat then backslash ++ "b"
  else if (n =? 12)%nat then backslash ++ "f"
  else if (n <? 32)%nat || (126 <? n)%nat
       then backslash ++ "u00" ++ hex_digit (n / 16) ++ hex_digit (n mod 16)
  else String c EmptyString.

Fixpoint json_escape (s : string) : string :=
  match s with
  | EmptyString => EmptyString
  | String c s' => json_escape_char c ++ json_escape s'
  end.

Definition decimal (z : Z) : string := NilZero.string_of_int (Z.to_int z).

(** A float as text. [TEMPERATURE] is written as Python writes it; any
    other finite float is written as mantissa and exponent, because the
    shortest decimal Python prints is not computed here. *)
Definition render_float (f : spec_float) : string :=
  match f with
  | S754_nan => "NaN"
  | S754_infinity s => if s then "-Infinity" else "Infinity"
  | S754_zero s => if s then "-0.0" else "0.0"
  | S754_finite s m e =>
      if negb s && Pos.eqb m 5404319552844595 && (e =? -54) then "0.3"
      else decimal (signed s m) ++ "*2**" ++ decimal e
  end.

(** [json.dumps] with its default separators, floats as [render_float]
    writes them. *)
Fixpoint render (v : pyvalue) : string :=
  match v with
  | VNone => "null"
  | VBool b => if b then "true" else "false"
  | VInt z => decimal z
  | VFloat f => render_float f
  | VStr s => quoted (json_escape s)
  | VList l => "[" ++ String.concat ", " (map render l) ++ "]"
  | VDict d =>
      "{" ++ String.concat ", "
               (map (fun kv : string * pyvalue =>
                       let (k, x) := kv in
                       quoted (json_escape k) ++ ": " ++ render x) d)
          ++ "}"
  end.

(** The body of a Bedrock response whose first content block holds
    [reply], and what [json.loads] makes of it. *)
Definition bedrock_payload (reply : string) : string :=
  "{" ++ quoted "content" ++ ": [{" ++ quoted "text" ++ ": "
      ++ quoted (json_escape reply) ++ "}]}".

Definition bedrock_document (reply : string) : pyvalue :=
  VDict [ ("content", VList [ VDict [ ("text", VStr reply) ] ]) ].

(** Candidate documents of the examples, each with its [json.loads]. *)
Definition doc_roadmap : string := "{" ++ quoted "roadmap" ++ ":[]}".

Definition doc_plan : string := "{" ++ quoted "plan" ++ ":[]}".

Definition doc_array : string := "[" ++ quoted "roadmap" ++ "]".

Definition known_documents : list (string * pyvalue) :=
  [ (doc_roadmap, VDict [ ("roadmap", VList []) ]);
    (doc_plan, VDict [ ("plan", VList []) ]);
    (doc_array, VList [ VStr "roadmap" ]);
    ("42", VInt 42) ].

(** [json.loads] restricted to a table of documents; every other text is
    refused. *)
Definition table_loads (docs : list (string * pyvalue)) (s : string)
  : string + pyvalue :=
  match find (fun kv => String.eqb s (fst kv)) docs with
  | Some kv => inr (snd kv)
  | None => inl "Expecting value: line 1 column 1 (char 0)"
  end.

(** A world in which the model call ends as [outcome]: it raises, or the
    model replies with the given text. The wording of interpreter-raised
    exceptions is a placeholder naming the class. *)
Definition stub_env (outcome : result string) : Env :=
  {| json_loads :=
       table_loads
         (match outcome with
          | inr reply => (bedrock_payload reply, bedrock_document reply) :: known_documents
          | inl _ => known_documents
          end);
     json_dumps := render;
     utcnow_isoformat := "2024-05-01T12:00:00";
     invoke_model :=
       fun _ _ => match outcome with
                  | inr reply => inr (bedrock_payload reply)
                  | inl e => inl e
                  end;
     builtin_message :=
       fun c _ => match c with
                  | TypeError => "<TypeError>"
                  | KeyError => "<KeyError>"
                  | IndexError => "<IndexError>"
                  | AttributeError => "<AttributeError>"
                  | _ => "<exception>"
                  end |}.

(** The event of the docstring of [lambda_handler], and variants of it. *)
Definition event_profile : dict :=
  [ ("weak_topics", VList [ VStr "Dynamic Programming"; VStr "Graph Algorithms" ]);
    ("total_solved", VInt 150) ].

Definition event_no_total : dict :=
  [ ("weak_topics", VList [ VStr "Dynamic Programming" ]) ].

Definition event_no_topics : dict := [ ("total_solved", VInt 150) ].

Definition event_empty_topics : dict :=
  [ ("weak_topics", VList []); ("total_solved", VInt 150) ].

Definition event_text_total : dict :=
  [ ("weak_topics", VList [ VStr "Dynamic Programming" ]);
    ("total_solved", VStr "150") ].

(** A reply in a JSON-tagged fence, one in a plain fence after some prose,
    a bare reply, and a fence left open. *)
Definition reply_fenced : string :=
  fence_json ++ nl ++ doc_roadmap ++ nl ++ fence.

Definition reply_plain_fence : string :=
  "Plan:" ++ nl ++ fence ++ nl ++ doc_roadmap ++ nl ++ fence ++ nl ++ "Good luck".

Definition reply_bare : string := "  " ++ doc_roadmap ++ nl.

Definition reply_unclosed : string := fence_json ++ nl ++ doc_roadmap ++ nl ++ "!".

(* ================================================================= *)
(** ** Notions used in further statements *)

(** What the [in] test of the validator lets through: a dict with the key
    [roadmap], a list with the item ['roadmap'], a text that contains
    [roadmap]. *)
Definition names_roadmap (v : pyvalue) : bool :=
  match v with
  | VDict d => dict_has_key d "roadmap"
  | VList l => existsb (fun x => match x with
                                 | VStr s => String.eqb "roadmap" s
                                 | _ => false
                                 end) l
  | VStr s => str_contains "roadmap" s
  | _ => false
  end.

(** The levels in order. *)
Definition level_rank (level : string) : nat :=
  if String.eqb level "Beginner" then 0
  else if String.eqb level "Intermediate" then 1
  else 2.

(** A world in which the model call returns the text [payload], which
    [json.loads] turns into [document] (or refuses); every other text is
    looked up among the documents of the examples. *)
Definition payload_env (payload : string) (document : string + pyvalue) : Env :=
  {| json_loads :=
       fun s => if String.eqb s payload then document
                else table_loads known_documents s;
     json_dumps := render;
     utcnow_isoformat := "2024-05-01T12:00:00";
     invoke_model := fun _ _ => inr payload;
     builtin_message := builtin_message (stub_env (inr payload)) |}.

(* ================================================================= *)
(** ** The profile store, in source order

    [src/lambda-functions/task1-dynamodb-lambda/lambda_function.py]. Every
    handler of that file catches [Exception] and uses only [str(e)], so a
    failure is its text. A run may read the clock more than once: the
    timestamp of an item and the timestamp of a later error response are
    two readings. *)

Module Profiles.

(** One access to the table [dynamodb.Table(TABLE_NAME)]:
    [put_item(Item=item)] or [get_item(Key={'user_id': user_id})]. Getting
    hold of the table object is no access. *)
Inductive access : Type :=
| Put (item : pyvalue)
| Get (user_id : pyvalue).

(** The library code around the module. What [get_item] returns under
    ['Item'] is decoded by the client library and need not be a value
    [json.dumps] accepts, so items read from the table are of a type of
    their own and the serialisation of a body that holds one may raise. *)
Record World (Item : Type) : Type := {
  (** the [k]-th [datetime.utcnow().isoformat()] of a run, from 0 *)
  clock : nat -> string;
  (** [json.dumps] on values that came with the event *)
  dumps : pyvalue -> string;
  (** [json.dumps({'message': 'Profile retrieved successfully',
      'user_id': user_id, 'profile': profile})]; [inl] is [str(e)] *)
  dumps_retrieved : pyvalue -> Item -> string + string;
  (** [table.put_item(Item=item)]; [inl] is [str(e)] *)
  put_item : pyvalue -> string + unit;
  (** [table.get_item(Key={'user_id': user_id})]: what the response holds
      under ['Item'], [None] when the key is not in the response *)
  get_item : pyvalue -> string + option Item;
  (** [str(v)] for a float, a list or a dict *)
  str_other : pyvalue -> string;
  (** [str(e)] of the exception of the named class that the interpreter
      raises about an operand *)
  message : string -> pyvalue -> string
}.

Arguments clock {Item}.
Arguments dumps {Item}.
Arguments dumps_retrieved {Item}.
Arguments put_item {Item}.
Arguments get_item {Item}.
Arguments str_other {Item}.
Arguments message {Item}.

(** The state of a run: how often the clock was read, and the accesses to
    the table so far. *)
Definition state : Type := (nat * list access)%type.

(** A computation that runs to a value, and one that may raise. *)
Definition T (A : Type) : Type := state -> state * A.

Definition P (A : Type) : Type := state -> state * (string + A).

Definition pret {A : Type} (a : A) : P A := fun s => (s, inr a).

Definition praise {A : Type} (msg : string) : P A := fun s => (s, inl msg).

Definition pbind {A B : Type} (m : P A) (k : A -> P B) : P B :=
  fun s => match m s with
           | (s', inl msg) => (s', inl msg)
           | (s', inr a) => k a s'
           end.

(** A computation that cannot raise, inside one that may. *)
Definition total {A : Type} (t : T A) : P A :=
  fun s => let (s', a) := t s in (s', inr a).

(** [try: m  except Exception as e: return h e] *)
Definition catch {A : Type} (m : P A) (h : string -> T A) : T A :=
  fun s => match m s with
           | (s', inl msg) => h msg s'
           | (s', inr a) => (s', a)
           end.

Notation "x <~ m ;; k" := (pbind m (fun x => k))
  (at level 61, m at next level, right associativity).

(** [v == 'text']: only a [str] equals a [str]. *)
Definition equals_str (v : pyvalue) (text : string) : bool :=
  match v with
  | VStr s => String.eqb s text
  | _ => false
  end.

(** [int(n)] for what passed [isinstance(n, (int, float))]: a float is
    cut towards zero; NaN and the infinities raise. *)
Definition truncate (s : bool) (m : positive) (e : Z) : Z :=
  if 0 <=? e then signed s m * 2 ^ e
  else Z.quot (signed s m) (2 ^ (- e)).

Section Store.

Context {Item : Type}.

Variable W : World Item.

Definition to_int (n : number) : string + Z :=
  match n with
  | NInt z => inr z
  | NFloat S754_nan => inl (message W "ValueError" (VFloat S754_nan))
  | NFloat (S754_infinity s) => inl (message W "OverflowError" (VFloat (S754_infinity s)))
  | NFloat (S754_zero _) => inr 0
  | NFloat (S754_finite s m e) => inr (truncate s m e)
  end.

(** [str(v)], as an f-string writes a value. *)
Definition py_str (v : pyvalue) : string :=
  match v with
  | VNone => "None"
  | VBool b => if b then "True" else "False"
  | VInt z => decimal z
  | VStr s => s
  | _ => str_other W v
  end.

(** [v.get(k)]: only a dict has the method. *)
Definition get_method (v : pyvalue) (k : string) : P pyvalue :=
  match v with
  | VDict d => pret (dict_get_default d k VNone)
  | _ => praise (message W "AttributeError" v)
  end.

(** [datetime.utcnow().isoformat()] *)
Definition utcnow : T string :=
  fun s => let (reads, log) := s in ((S reads, log), clock W reads).

Definition table_put (item : pyvalue) : P unit :=
  fun s => let (reads, log) := s in
           ((reads, (log ++ [Put item])%list), put_item W item).

Definition table_get (user_id : pyvalue) : P (option Item) :=
  fun s => let (reads, log) := s in
           ((reads, (log ++ [Get user_id])%list), get_item W user_id).

(** [error_response] *)
Definition error_response (status_code : Z) (msg : string) : T pyvalue :=
  fun s =>
    let (s', timestamp) := utcnow s in
    (s',
     VDict [ ("statusCode", VInt status_code);
             ("body",
               VStr (dumps W (VDict [ ("error", VStr msg);
                                      ("timestamp", VStr timestamp) ]))) ]).

(** [store_profile]. In the item, [profile_data['weak_topics']] and the
    like are the values [.get] returned just before: each was a list or a
    number, so the key is there. *)
Definition store_profile (event : dict) : T pyvalue :=
  catch
    (let user_id := dict_get_default event "user_id" VNone in
     let profile_data := dict_get_default event "profile_data" VNone in
     if negb (truthy user_id) then total (error_response 400 "user_id is required")
     else if negb (truthy profile_data) then
       total (error_response 400 "profile_data is required")
     else
       weak_topics <~ get_method profile_data "weak_topics" ;;
       if negb (is_list weak_topics) then
         total (error_response 400 "weak_topics must be a list")
       else
         strong_topics <~ get_method profile_data "strong_topics" ;;
         if negb (is_list strong_topics) then
           total (error_response 400 "strong_topics must be a list")
         else
           total_solved <~ get_method profile_data "total_solved" ;;
           match as_number total_solved with
           | None => total (error_response 400 "total_solved must be a number")
           | Some n =>
               timestamp <~ total utcnow ;;
               solved <~ (fun s => (s, to_int n)) ;;
               let item :=
                 VDict [ ("user_id", user_id);
                         ("weak_topics", weak_topics);
                         ("strong_topics", strong_topics);
                         ("total_solved", VInt solved);
                         ("created_at", VStr timestamp);
                         ("updated_at", VStr timestamp) ] in
               _ <~ table_put item ;;
               pret (VDict
                       [ ("statusCode", VInt 200);
                         ("body",
                           VStr (dumps W
                                   (VDict [ ("message", VStr "Profile stored successfully");
                                            ("user_id", user_id);
                                            ("profile", item) ]))) ])
           end)
    (fun e => error_response 500 ("Failed to store profile: " ++ e)).

(** [get_profile] *)
Definition get_profile (event : dict) : T pyvalue :=
  catch
    (let user_id := dict_get_default event "user_id" VNone in
     if negb (truthy user_id) then total (error_response 400 "user_id is required")
     else
       response <~ table_get user_id ;;
       match response with
       | None =>
           total (error_response 404
                    ("Profile not found for user_id: " ++ py_str user_id))
       | Some profile =>
           body <~ (fun s => (s, dumps_retrieved W user_id profile)) ;;
           pret (VDict [ ("statusCode", VInt 200); ("body", VStr body) ])
       end)
    (fun e => error_response 500 ("Failed to retrieve profile: " ++ e)).

(** [lambda_handler] *)
Definition lambda_handler (event : dict) : T pyvalue :=
  catch
    (let operation := dict_get_default event "operation" VNone in
     if equals_str operation "store_profile" then total (store_profile event)
     else if equals_str operation "get_profile" then total (get_profile event)
     else total (error_response 400 ("Invalid operation: " ++ py_str operation)))
    (fun e => error_response 500 ("Internal server error: " ++ e)).

(** A run from the start: the accesses to the table and the response. *)
Definition run (event : dict) : list access * pyvalue :=
  let '((_, log), response) := lambda_handler event (O, []) in (log, response).

End Store.

(** A table for the examples: it holds one item or none, accepts every
    write, and what it returns serialises. *)
Definition stub_world (stored : option pyvalue) : World pyvalue :=
  {| clock := fun k => "2024-05-01T12:00:0" ++ decimal (Z.of_nat k);
     dumps := render;
     dumps_retrieved :=
       fun user_id profile =>
         inr (render (VDict [ ("message", VStr "Profile retrieved successfully");
                              ("user_id", user_id);
                              ("profile", profile) ]));
     put_item := fun _ => inr tt;
     get_item := fun _ => inr stored;
     str_other := render;
     message := fun class _ => "<" ++ class ++ ">" |}.

(** The event of the docstring of [lambda_handler], for storing. *)
Definition event_store (total_solved : pyvalue) : dict :=
  [ ("operation", VStr "store_profile");
    ("user_id", VStr "u1");
    ("profile_data",
      VDict [ ("weak_topics", VList [ VStr "Array"; VStr "Dynamic Programming" ]);
              ("strong_topics", VList [ VStr "Hash Table"; VStr "String" ]);
              ("total_solved", total_solved) ]) ].

End Profiles.

(* ================================================================= *)
(** ** Facts about the string primitives *)

Section StringFacts.

Implicit Types s t sub pre post : string.

Lemma append_assoc s t u : (s ++ t) ++ u = s ++ t ++ u.
Proof. induction s as [|c s IH]; simpl; [reflexivity | now rewrite IH]. Qed.

Lemma length_append s t :
  String.length (s ++ t) = (String.length s + String.length t)%nat.
Proof. induction s as [|c s IH]; simpl; [reflexivity | now rewrite IH]. Qed.

Lemma prefix_append sub post : prefix sub (sub ++ post) = true.
Proof.
  induction sub as [|c sub IH]; simpl; [now destruct post|].
  destruct (ascii_dec c c) as [_|ne]; [exact IH | now destruct ne].
Qed.

Lemma prefix_split sub s : prefix sub s = true -> exists post, s = sub ++ post.
Proof.
  revert s; induction sub as [|c sub IH]; intros s H.
  - now exists s.
  - destruct s as [|b s]; simpl in H; [discriminate|].
    destruct (ascii_dec c b) as [->|]; [|discriminate].
    destruct (IH _ H) as [post ->]. now exists post.
Qed.

Lemma drop_0 s : drop 0 s = s.
Proof. reflexivity. Qed.

Lemma drop_append pre s : drop (String.length pre) (pre ++ s) = s.
Proof. induction pre as [|c pre IH]; simpl; [apply drop_0 | exact IH]. Qed.

Lemma take_drop n s : take n s ++ drop n s = s.
Proof.
  revert s; induction n as [|n IH]; intros [|c s]; simpl; try reflexivity.
  now rewrite IH.
Qed.

Lemma length_take n s : (n <= String.length s)%nat -> String.length (take n s) = n.
Proof.
  revert s; induction n as [|n IH]; intros [|c s] H; simpl in *; try lia.
  rewrite IH; lia.
Qed.

Lemma length_drop n s : String.length (drop n s) = (String.length s - n)%nat.
Proof.
  revert s; induction n as [|n IH]; intros [|c s]; simpl; try reflexivity; auto.
Qed.

Lemma drop_drop n m s : drop n (drop m s) = drop (m + n) s.
Proof.
  revert s; induction m as [|m IH]; intros s; simpl.
  - reflexivity.
  - destruct s as [|c s]; [now destruct n | apply IH].
Qed.

Lemma take_substring n m s : take m (drop n s) = substring n m s.
Proof.
  revert s; induction n as [|n IH]; intros s.
  - change (drop 0 s) with s.
    revert s; induction m as [|m IHm]; intros [|c s]; simpl;
      try reflexivity. now rewrite IHm.
  - destruct s as [|c s]; simpl; [now destruct m | apply IH].
Qed.

(** Occurrences, seen through [drop] and [prefix]. *)
Lemma occurs_at_prefix sub s i :
  occurs_at sub s i <->
  (i <= String.length s)%nat /\ prefix sub (drop i s) = true.
Proof.
  split.
  - intros (pre & post & -> & <-). split.
    + rewrite length_append. lia.
    + rewrite drop_append. apply prefix_append.
  - intros [Hi Hp]. apply prefix_split in Hp as [post Hpost].
    exists (take i s), post. split.
    + rewrite <- Hpost. symmetry. apply take_drop.
    + now apply length_take.
Qed.

Lemma occurs_at_0 sub s : occurs_at sub s 0 <-> prefix sub s = true.
Proof.
  rewrite occurs_at_prefix, drop_0. intuition lia.
Qed.

Lemma occurs_at_S sub c s i :
  occurs_at sub (String c s) (S i) <-> occurs_at sub s i.
Proof.
  rewrite !occurs_at_prefix. simpl. intuition lia.
Qed.

Lemma occurs_at_drop sub s a k :
  (a <= String.length s)%nat ->
  occurs_at sub (drop a s) k <-> occurs_at sub s (a + k).
Proof.
  intros Ha. rewrite !occurs_at_prefix, drop_drop, length_drop.
  intuition lia.
Qed.

Lemma occurs_at_bound sub s i :
  occurs_at sub s i -> (i + String.length sub <= String.length s)%nat.
Proof.
  intros (pre & post & -> & <-). rewrite !length_append. lia.
Qed.

Lemma find_at_nil sub :
  find_at sub EmptyString = if prefix sub EmptyString then Some O else None.
Proof. reflexivity. Qed.

Lemma find_at_cons sub c s :
  find_at sub (String c s) =
  if prefix sub (String c s) then Some O else option_map S (find_at sub s).
Proof. reflexivity. Qed.

Lemma str_contains_nil sub :
  str_contains sub EmptyString = prefix sub EmptyString.
Proof. simpl. apply orb_false_r. Qed.

Lemma str_contains_cons sub c s :
  str_contains sub (String c s) = prefix sub (String c s) || str_contains sub s.
Proof. reflexivity. Qed.

(** [find_at] returns the first occurrence, and fails only when there
    is none. *)
Lemma find_at_first sub s i :
  find_at sub s = Some i -> first_occurrence sub s i.
Proof.
  revert i; induction s as [|c s IH]; intros i;
    [rewrite find_at_nil | rewrite find_at_cons].
  - destruct (prefix sub EmptyString) eqn:Hp; [|discriminate].
    intros [= <-]. split; [now apply occurs_at_0 | intros j Hj; lia].
  - destruct (prefix sub (String c s)) eqn:Hp.
    + intros [= <-]. split; [now apply occurs_at_0 | intros j Hj; lia].
    + destruct (find_at sub s) as [k|]; simpl; [|discriminate].
      intros [= <-]. destruct (IH k eq_refl) as [Hk Hmin]. split.
      * now apply occurs_at_S.
      * intros [|j] Hj.
        -- rewrite occurs_at_0. congruence.
        -- rewrite occurs_at_S. apply Hmin. lia.
Qed.

Lemma find_at_none sub s : find_at sub s = None -> ~ occurs sub s.
Proof.
  induction s as [|c s IH]; [rewrite find_at_nil | rewrite find_at_cons].
  - destruct (prefix sub EmptyString) eqn:Hp; [discriminate|].
    intros _ [i Hi]. apply occurs_at_prefix in Hi as [Hi Hd].
    simpl in Hi. assert (i = 0)%nat as -> by lia.
    rewrite drop_0 in Hd. congruence.
  - destruct (prefix sub (String c s)) eqn:Hp; [discriminate|].
    destruct (find_at sub s) as [k|]; simpl; [discriminate|].
    intros _ [[|i] Hi].
    + apply occurs_at_0 in Hi. congruence.
    + apply occurs_at_S in Hi. apply IH; [reflexivity | now exists i].
Qed.

Lemma first_occurrence_unique sub s i j :
  first_occurrence sub s i -> first_occurrence sub s j -> i = j.
Proof.
  intros [Hi Hmi] [Hj Hmj].
  destruct (Nat.lt_trichotomy i j) as [H|[H|H]]; [|assumption|].
  - now destruct (Hmj i H).
  - now destruct (Hmi j H).
Qed.

Lemma first_occurrence_find sub s i :
  first_occurrence sub s i -> find_at sub s = Some i.
Proof.
  intros H. destruct (find_at sub s) as [k|] eqn:Hf.
  - f_equal. apply find_at_first in Hf.
    eapply first_occurrence_unique; eassumption.
  - destruct (find_at_none _ _ Hf). exists i. apply H.
Qed.

Lemma str_contains_find sub s :
  str_contains sub s = match find_at sub s with Some _ => true | None => false end.
Proof.
  induction s as [|c s IH].
  - rewrite str_contains_nil, find_at_nil. now destruct (prefix sub EmptyString).
  - rewrite str_contains_cons, find_at_cons.
    destruct (prefix sub (String c s)); simpl; [reflexivity|].
    rewrite IH. now destruct (find_at sub s).
Qed.

Lemma str_contains_occurs sub s : str_contains sub s = true <-> occurs sub s.
Proof.
  rewrite str_contains_find. destruct (find_at sub s) as [k|] eqn:Hf.
  - split; [intros _ | reflexivity].
    exists k. now apply find_at_first.
  - split; [discriminate | intros H]. now destruct (find_at_none _ _ Hf).
Qed.

Lemma str_contains_false sub s : str_contains sub s = false <-> ~ occurs sub s.
Proof.
  rewrite <- str_contains_occurs. destruct (str_contains sub s); intuition congruence.
Qed.

End StringFacts.

(* ================================================================= *)
(** ** Facts about searching, slicing and trimming *)

Section SearchFacts.

Implicit Types s t sub : string.

(** [s.find(sub, a)] for an offset inside the string. *)
Lemma str_find_from s sub (a : nat) :
  (a <= String.length s)%nat ->
  str_find s sub (Z.of_nat a) =
  match find_at sub (drop a s) with
  | Some k => Z.of_nat (a + k)
  | None => -1
  end.
Proof.
  intros Ha. unfold str_find.
  destruct (Z.of_nat a <? 0) eqn:Hneg; [apply Z.ltb_lt in Hneg; lia|].
  destruct (Z.of_nat (String.length s) <? Z.of_nat a) eqn:Hlen;
    [apply Z.ltb_lt in Hlen; lia|].
  rewrite Nat2Z.id. destruct (find_at sub (drop a s)); [|reflexivity].
  now rewrite Nat2Z.inj_add.
Qed.

Lemma str_find_first s sub i :
  first_occurrence sub s i -> str_find s sub 0 = Z.of_nat i.
Proof.
  intros H. change 0 with (Z.of_nat 0).
  rewrite str_find_from by lia.
  rewrite drop_0, (first_occurrence_find _ _ _ H). reflexivity.
Qed.

(** The next occurrence from [a] is the first occurrence in [s[a:]]. *)
Lemma next_occurrence_drop sub s a j :
  next_occurrence sub s a j ->
  (a <= String.length s)%nat /\ first_occurrence sub (drop a s) (j - a).
Proof.
  intros (Haj & Hj & Hmin).
  assert (a <= String.length s)%nat as Ha.
  { apply occurs_at_bound in Hj. lia. }
  split; [exact Ha|]. split.
  - apply occurs_at_drop; [exact Ha|].
    now replace (a + (j - a))%nat with j by lia.
  - intros k Hk Hocc. apply occurs_at_drop in Hocc; [|exact Ha].
    apply (Hmin (a + k)%nat); [lia | exact Hocc].
Qed.

Lemma str_find_next s sub a j :
  next_occurrence sub s a j -> str_find s sub (Z.of_nat a) = Z.of_nat j.
Proof.
  intros H. pose proof H as (Haj & _ & _).
  apply next_occurrence_drop in H as [Ha Hfirst].
  rewrite str_find_from by exact Ha.
  rewrite (first_occurrence_find _ _ _ Hfirst). f_equal. lia.
Qed.

Lemma str_find_missing s sub a :
  (a <= String.length s)%nat ->
  (forall j, (a <= j)%nat -> ~ occurs_at sub s j) ->
  str_find s sub (Z.of_nat a) = -1.
Proof.
  intros Ha Hnone. rewrite str_find_from by exact Ha.
  destruct (find_at sub (drop a s)) as [k|] eqn:Hf; [|reflexivity].
  apply find_at_first in Hf as [Hk _].
  apply occurs_at_drop in Hk; [|exact Ha].
  destruct (Hnone (a + k)%nat); [lia | exact Hk].
Qed.

(** [s[a:b]] for offsets in order inside the string. *)
Lemma str_slice_between s (a b : nat) :
  (a <= b <= String.length s)%nat ->
  str_slice s (Z.of_nat a) (Z.of_nat b) = between s a b.
Proof.
  intros H. unfold str_slice, between, adjust_index.
  destruct (Z.of_nat a <? 0) eqn:Ha; [apply Z.ltb_lt in Ha; lia|].
  destruct (Z.of_nat b <? 0) eqn:Hb; [apply Z.ltb_lt in Hb; lia|].
  rewrite !Z.min_l by lia.
  rewrite Nat2Z.id, <- Nat2Z.inj_sub, Nat2Z.id by lia.
  apply take_substring.
Qed.

Lemma take_all_but_last t : take (String.length t - 1) t = drop_last t.
Proof.
  induction t as [|c t IH]; [reflexivity|].
  destruct t as [|d t]; [reflexivity|].
  replace (String.length (String c (String d t)) - 1)%nat
    with (S (String.length (String d t) - 1)) by (simpl; lia).
  change (drop_last (String c (String d t)))
    with (String c (drop_last (String d t))).
  change (take (S ?n) (String c ?u)) with (String c (take n u)).
  now rewrite IH.
Qed.

(** [s[a:-1]]: the text from [a] on, without the last character of [s]. *)
Lemma str_slice_to_last s (a : nat) :
  (a <= String.length s)%nat ->
  str_slice s (Z.of_nat a) (-1) = drop_last (drop a s).
Proof.
  intros Ha. unfold str_slice, adjust_index.
  destruct (Z.of_nat a <? 0) eqn:Hneg; [apply Z.ltb_lt in Hneg; lia|].
  change (-1 <? 0) with true. cbv iota.
  rewrite Z.min_l, Nat2Z.id by lia.
  rewrite <- take_all_but_last, length_drop. f_equal. lia.
Qed.

(** Trimming. *)
Lemma lstrip_idempotent s : lstrip (lstrip s) = lstrip s.
Proof.
  induction s as [|c s IH]; [reflexivity|]. simpl.
  destruct (isspace c) eqn:Hc; [exact IH|]. simpl. now rewrite Hc.
Qed.

Lemma rstrip_cons c s :
  rstrip (String c s) =
  match rstrip s with
  | EmptyString => if isspace c then EmptyString else String c EmptyString
  | r => String c r
  end.
Proof. reflexivity. Qed.

Lemma rstrip_idempotent s : rstrip (rstrip s) = rstrip s.
Proof.
  induction s as [|c s IH]; [reflexivity|].
  rewrite rstrip_cons. destruct (rstrip s) as [|d r] eqn:Hr.
  - destruct (isspace c) eqn:Hc; [reflexivity|].
    rewrite rstrip_cons. simpl rstrip. now rewrite Hc.
  - rewrite rstrip_cons, IH. reflexivity.
Qed.

(** Trimming on the left keeps a right-trimmed string right-trimmed. *)
Lemma rstrip_lstrip_fixed t : rstrip t = t -> rstrip (lstrip t) = lstrip t.
Proof.
  induction t as [|c t IH]; [reflexivity|]. intros H. simpl.
  destruct (isspace c) eqn:Hc; [|exact H].
  apply IH. rewrite rstrip_cons, Hc in H.
  destruct (rstrip t) as [|d r]; [discriminate | now injection H].
Qed.

Lemma strip_idempotent s : strip (strip s) = strip s.
Proof.
  unfold strip.
  rewrite (rstrip_lstrip_fixed (rstrip s)) by apply rstrip_idempotent.
  apply lstrip_idempotent.
Qed.

Lemma lstrip_spec s :
  exists l, s = l ++ lstrip s /\ all_space l = true
            /\ starts_with_space (lstrip s) = false.
Proof.
  induction s as [|c s (l & Hl & Hsp & Hst)].
  - now exists EmptyString.
  - simpl. destruct (isspace c) eqn:Hc.
    + exists (String c l). simpl. rewrite Hc, Hsp, <- Hl. now repeat split.
    + exists EmptyString. simpl. now rewrite Hc.
Qed.

Lemma ends_with_space_cons c d s :
  ends_with_space (String c (String d s)) = ends_with_space (String d s).
Proof. reflexivity. Qed.

Lemma rstrip_spec s :
  exists r, s = rstrip s ++ r /\ all_space r = true
            /\ ends_with_space (rstrip s) = false.
Proof.
  induction s as [|c s (r & Hr & Hsp & Hend)].
  - now exists EmptyString.
  - rewrite rstrip_cons. destruct (rstrip s) as [|d u] eqn:Hu.
    + destruct (isspace c) eqn:Hc.
      * exists (String c s). simpl in Hr. subst r. simpl. rewrite Hc, Hsp.
        now repeat split.
      * exists r. simpl in Hr. subst r. simpl. rewrite Hc. now repeat split.
    + exists r. rewrite ends_with_space_cons.
      change (String c (String d u) ++ r) with (String c (String d u ++ r)).
      rewrite <- Hr. now repeat split.
Qed.

Lemma ends_with_space_suffix l t :
  ends_with_space (l ++ t) = false -> ends_with_space t = false.
Proof.
  induction l as [|c l IH]; simpl; [tauto|].
  destruct (l ++ t) as [|d u] eqn:Hlt.
  - destruct l; [|discriminate]. simpl in Hlt. now subst t.
  - exact IH.
Qed.

(** [strip] removes white space at both ends and nothing else. *)
Lemma strip_spec s :
  exists l r,
    s = l ++ strip s ++ r
    /\ all_space l = true /\ all_space r = true
    /\ starts_with_space (strip s) = false
    /\ ends_with_space (strip s) = false.
Proof.
  destruct (rstrip_spec s) as (r & Hr & Hspr & Hend).
  destruct (lstrip_spec (rstrip s)) as (l & Hl & Hspl & Hst).
  exists l, r. unfold strip. repeat split; try assumption.
  - rewrite <- append_assoc, <- Hl. exact Hr.
  - apply (ends_with_space_suffix l). now rewrite <- Hl.
Qed.
Lemma lstrip_suffix s : exists pre, s = pre ++ lstrip s.
Proof.
  induction s as [|c s [pre IH]]; [now exists EmptyString|]. simpl.
  destruct (isspace c).
  - exists (String c pre). simpl. now rewrite <- IH.
  - now exists EmptyString.
Qed.

Lemma rstrip_prefix s : exists post, s = rstrip s ++ post.
Proof.
  induction s as [|c s [post IH]]; [now exists EmptyString|].
  rewrite rstrip_cons. destruct (rstrip s) as [|d r].
  - destruct (isspace c).
    + now exists (String c s).
    + exists post. simpl in *. now rewrite <- IH.
  - exists post. simpl in *. now rewrite <- IH.
Qed.

Lemma strip_inside s : exists pre post, s = pre ++ strip s ++ post.
Proof.
  destruct (rstrip_prefix s) as [post Hpost].
  destruct (lstrip_suffix (rstrip s)) as [pre Hpre].
  exists pre, post. unfold strip. rewrite <- append_assoc, <- Hpre. exact Hpost.
Qed.

Lemma occurs_inside sub pre t post : occurs sub t -> occurs sub (pre ++ t ++ post).
Proof.
  intros (i & a & b & -> & _).
  exists (String.length (pre ++ a)), (pre ++ a), (b ++ post).
  split; [|reflexivity]. now rewrite !append_assoc.
Qed.

Lemma occurs_strip sub s : occurs sub (strip s) -> occurs sub s.
Proof.
  intros H. destruct (strip_inside s) as (pre & post & Hs).
  rewrite Hs. now apply occurs_inside.
Qed.

(** Where the tagged fence occurs, the plain fence occurs. *)
Lemma occurs_fence_json s i : occurs_at fence_json s i -> occurs_at fence s i.
Proof.
  intros (pre & post & -> & Hi). exists pre, ("json" ++ post). now split.
Qed.

End SearchFacts.

(* ================================================================= *)
(** ** Extraction *)

Section Extraction.

Implicit Types raw s : string.

Lemma next_occurrence_find sub s a k :
  (a <= String.length s)%nat ->
  find_at sub (drop a s) = Some k ->
  next_occurrence sub s a (a + k).
Proof.
  intros Ha Hf. apply find_at_first in Hf as [Hk Hmin].
  split; [lia|]. split.
  - now apply occurs_at_drop.
  - intros j Hj Hocc. apply (Hmin (j - a)%nat); [lia|].
    apply occurs_at_drop; [exact Ha|].
    now replace (a + (j - a))%nat with j by lia.
Qed.

Lemma no_fence_no_json_fence s : ~ occurs fence s -> ~ occurs fence_json s.
Proof.
  intros H [i Hi]. apply H. exists i. now apply occurs_fence_json.
Qed.

(** The candidate cut out after an opening delimiter [open] found first at
    [i], when the next delimiter is at [j]. *)
Lemma slice_after_opening s open i j :
  first_occurrence open s i ->
  next_occurrence fence s (i + String.length open) j ->
  let start := str_find s open 0 + Z.of_nat (String.length open) in
  str_slice s start (str_find s fence start)
  = between s (i + String.length open) j.
Proof.
  intros Hi Hj start. subst start.
  rewrite (str_find_first _ _ _ Hi), <- Nat2Z.inj_add.
  rewrite (str_find_next _ _ _ _ Hj).
  destruct Hj as (Hle & Hocc & _). apply occurs_at_bound in Hocc.
  apply str_slice_between. lia.
Qed.

Lemma extract_no_fence s : ~ occurs fence s -> extract_json_str s = strip s.
Proof.
  intros H. unfold extract_json_str.
  apply no_fence_no_json_fence in H as Hj.
  apply str_contains_false in H. apply str_contains_false in Hj.
  now rewrite Hj, H.
Qed.

(** C3. For every raw reply, extraction follows the three ordered checks,
    the first that matches winning: with a JSON-tagged fence, the text
    between the end of its first occurrence and the next delimiter after
    it, trimmed; else with any fence, the text between the end of the first
    delimiter and the next delimiter after it, trimmed; else the whole
    reply, trimmed. Whatever the rule relates to a reply is what
    [extract_json_str] returns: the closing delimiter is always the first
    one after the opening one, and nesting plays no part. *)
Theorem extract_follows_ordered_checks raw candidate :
  extraction_rule raw candidate -> extract_json_str raw = candidate.
Proof.
  intros [i j Hi Hj | i j Hno Hi Hj | Hno].
  - unfold extract_json_str.
    assert (str_contains fence_json raw = true) as ->.
    { apply str_contains_occurs. exists i. apply Hi. }
    f_equal. exact (slice_after_opening raw fence_json i j Hi Hj).
  - unfold extract_json_str.
    apply str_contains_false in Hno. rewrite Hno.
    assert (str_contains fence raw = true) as ->.
    { apply str_contains_occurs. exists i. apply Hi. }
    f_equal. exact (slice_after_opening raw fence i j Hi Hj).
  - now apply extract_no_fence.
Qed.

Lemma extract_follows_ordered_checks_witness :
  (extraction_rule reply_fenced doc_roadmap
   /\ extract_json_str reply_fenced = doc_roadmap)
  /\ (extraction_rule reply_plain_fence doc_roadmap
      /\ extract_json_str reply_plain_fence = doc_roadmap)
  /\ (extraction_rule reply_bare doc_roadmap
      /\ extract_json_str reply_bare = doc_roadmap).
Proof.
  assert (extraction_rule reply_fenced doc_roadmap) as H1.
  { change doc_roadmap
      with (strip (between reply_fenced (0 + String.length fence_json) (7 + 16))).
    apply rule_json_fence.
    - apply find_at_first. reflexivity.
    - apply next_occurrence_find; [simpl; lia | reflexivity]. }
  assert (extraction_rule reply_plain_fence doc_roadmap) as H2.
  { change doc_roadmap
      with (strip (between reply_plain_fence (6 + String.length fence) (9 + 16))).
    apply rule_any_fence.
    - apply str_contains_false. reflexivity.
    - apply find_at_first. reflexivity.
    - apply next_occurrence_find; [simpl; lia | reflexivity]. }
  assert (extraction_rule reply_bare doc_roadmap) as H3.
  { change doc_roadmap with (strip reply_bare).
    apply rule_no_fence. apply str_contains_false. reflexivity. }
  split; [|split].
  - split; [exact H1 | exact (extract_follows_ordered_checks _ _ H1)].
  - split; [exact H2 | exact (extract_follows_ordered_checks _ _ H2)].
  - split; [exact H3 | exact (extract_follows_ordered_checks _ _ H3)].
Defined.

(** Every reply whose opened fence is closed falls under the rule. *)
Lemma extraction_rule_total raw :
  (forall open i,
      (open = fence_json \/ open = fence /\ ~ occurs fence_json raw) ->
      first_occurrence open raw i ->
      exists j, next_occurrence fence raw (i + String.length open) j) ->
  exists candidate, extraction_rule raw candidate.
Proof.
  intros Hclosed.
  destruct (find_at fence_json raw) as [i|] eqn:Hjson.
  - apply find_at_first in Hjson.
    destruct (Hclosed fence_json i (or_introl eq_refl) Hjson) as [j Hj].
    eexists. eapply rule_json_fence; eassumption.
  - apply find_at_none in Hjson.
    destruct (find_at fence raw) as [i|] eqn:Hany.
    + apply find_at_first in Hany.
      destruct (Hclosed fence i (or_intror (conj eq_refl Hjson)) Hany) as [j Hj].
      eexists. eapply rule_any_fence; eassumption.
    + apply find_at_none in Hany. eexists. now apply rule_no_fence.
Qed.

(** C9. On text without any fence delimiter, extraction is trimming, and
    extracting twice is extracting once. *)
Theorem extract_idempotent_on_clean_text s :
  ~ occurs fence s ->
  extract_json_str s = strip s
  /\ extract_json_str (extract_json_str s) = extract_json_str s.
Proof.
  intros H. pose proof (extract_no_fence s H) as Hs. split; [exact Hs|].
  rewrite Hs, extract_no_fence.
  - apply strip_idempotent.
  - intros Hocc. apply H. now apply occurs_strip in Hocc.
Qed.

Lemma extract_idempotent_on_clean_text_witness :
  ~ occurs fence reply_bare
  /\ extract_json_str reply_bare = doc_roadmap
  /\ extract_json_str (extract_json_str reply_bare) = extract_json_str reply_bare.
Proof.
  assert (~ occurs fence reply_bare) as H.
  { apply str_contains_false. reflexivity. }
  split; [exact H|].
  exact (extract_idempotent_on_clean_text reply_bare H).
Defined.

End Extraction.

(* ================================================================= *)
(** ** A fence that is never closed *)

Section UnclosedFence.

Variable E : Env.

Lemma drop_last_shorter t :
  t <> EmptyString -> S (String.length (drop_last t)) = String.length t.
Proof.
  induction t as [|c t IH]; [congruence|]. intros _.
  destruct t as [|d t]; [reflexivity|].
  change (drop_last (String c (String d t)))
    with (String c (drop_last (String d t))).
  cbn [String.length]. rewrite IH by discriminate. reflexivity.
Qed.

(** C10. When the reply has a JSON-tagged opening delimiter and no
    delimiter after it, the search for the closing one answers [-1], and
    [-1] is used as the end of the slice: the candidate is the text after
    the tag without the last character of the reply, trimmed, not the
    whole remainder; and that candidate is what gets validated. *)
Theorem unclosed_json_fence_drops_last_character (s : string) (i : nat) :
  first_occurrence fence_json s i ->
  (forall j, (i + 7 <= j)%nat -> ~ occurs_at fence s j) ->
  let start := Z.of_nat i + 7 in
  let rest := drop (i + 7) s in
  str_find s fence start = -1
  /\ str_slice s start (-1) = drop_last rest
  /\ (rest <> EmptyString -> S (String.length (drop_last rest)) = String.length rest)
  /\ extract_json_str s = strip (drop_last rest)
  /\ parse_ai_response E s = validate_json_str E (strip (drop_last rest)).
Proof.
  intros Hi Hnone start rest.
  assert (i + 7 <= String.length s)%nat as Hlen.
  { destruct Hi as [Hocc _]. apply occurs_at_bound in Hocc. exact Hocc. }
  assert (start = Z.of_nat (i + 7)) as Hstart by (subst start; lia).
  assert (str_find s fence start = -1) as Hfind.
  { rewrite Hstart. now apply str_find_missing. }
  assert (str_slice s start (-1) = drop_last rest) as Hslice.
  { rewrite Hstart. now apply str_slice_to_last. }
  assert (extract_json_str s = strip (drop_last rest)) as Hextract.
  { unfold extract_json_str.
    assert (str_contains fence_json s = true) as ->.
    { apply str_contains_occurs. exists i. apply Hi. }
    rewrite (str_find_first _ _ _ Hi). fold start.
    now rewrite Hfind, Hslice. }
  repeat split; try assumption.
  - apply drop_last_shorter.
  - unfold parse_ai_response. now rewrite Hextract.
Qed.

End UnclosedFence.

Lemma unclosed_json_fence_drops_last_character_witness :
  first_occurrence fence_json reply_unclosed 0
  /\ extract_json_str reply_unclosed = doc_roadmap
  /\ parse_ai_response (stub_env (inr reply_unclosed)) reply_unclosed
     = inr (VDict [ ("roadmap", VList []) ]).
Proof.
  assert (first_occurrence fence_json reply_unclosed 0) as Hi.
  { apply find_at_first. reflexivity. }
  assert (forall j, (0 + 7 <= j)%nat -> ~ occurs_at fence reply_unclosed j) as Hnone.
  { intros j Hj Hocc.
    assert (find_at fence (drop 7 reply_unclosed) = None) as Hf by reflexivity.
    apply find_at_none in Hf. apply Hf. exists (j - 7)%nat.
    apply occurs_at_drop; [simpl; lia|].
    now replace (7 + (j - 7))%nat with j by lia. }
  destruct (unclosed_json_fence_drops_last_character
              (stub_env (inr reply_unclosed)) reply_unclosed 0 Hi Hnone)
    as (_ & _ & _ & Hextract & Hparse).
  split; [exact Hi|]. split; [exact Hextract|]. exact Hparse.
Defined.

(* ================================================================= *)
(** ** Level classification *)

Section Levels.

(** The float comparison decides the order of the values. *)
Lemma float_lt_int_below x c :
  float_lt_int x c = true <-> below (float_value x) c.
Proof.
  destruct x as [s|s| |s m e]; simpl.
  - rewrite Z.ltb_lt. unfold Qlt. simpl. lia.
  - destruct s; simpl; intuition discriminate.
  - intuition discriminate.
  - destruct (0 <=? e) eqn:He; simpl.
    + rewrite Z.ltb_lt, <- Zlt_Qlt. reflexivity.
    + apply Z.leb_gt in He. rewrite Z.ltb_lt. unfold Qlt. simpl.
      rewrite Z2Pos.id by (apply Z.pow_pos_nonneg; lia). lia.
Qed.

Lemma float_lt_int_at_least x c :
  at_least (float_value x) c -> float_lt_int x c = false.
Proof.
  destruct x as [s|s| |s m e]; simpl.
  - rewrite Z.ltb_ge. unfold Qle. simpl. lia.
  - destruct s; simpl; intuition.
  - reflexivity.
  - destruct (0 <=? e) eqn:He; simpl.
    + rewrite Z.ltb_ge, <- Zle_Qle. tauto.
    + apply Z.leb_gt in He. rewrite Z.ltb_ge. unfold Qle. simpl.
      rewrite Z2Pos.id by (apply Z.pow_pos_nonneg; lia). lia.
Qed.

Lemma num_lt_below n c : num_lt n c = true <-> below (number_value n) c.
Proof.
  destruct n as [z|x]; simpl.
  - rewrite Z.ltb_lt, <- Zlt_Qlt. reflexivity.
  - apply float_lt_int_below.
Qed.

Lemma num_lt_at_least n c : at_least (number_value n) c -> num_lt n c = false.
Proof.
  destruct n as [z|x]; simpl.
  - rewrite Z.ltb_ge, <- Zle_Qle. tauto.
  - apply float_lt_int_at_least.
Qed.

Lemma below_weaken x c d : c <= d -> below x c -> below x d.
Proof.
  intros Hcd. destruct x as [| | |q]; simpl; try tauto.
  intros H. eapply Qlt_le_trans; [exact H|]. now rewrite <- Zle_Qle.
Qed.

Lemma at_least_weaken x c d : d <= c -> at_least x c -> at_least x d.
Proof.
  intros Hcd. destruct x as [| | |q]; simpl; try tauto.
  intros H. eapply Qle_trans; [|exact H]. now rewrite <- Zle_Qle.
Qed.

(** The level is always one of the three names. *)
Lemma determine_user_level_range n :
  In (determine_user_level n) ["Beginner"; "Intermediate"; "Advanced"].
Proof.
  unfold determine_user_level.
  destruct (num_lt n 50); [simpl; auto|].
  destruct (num_lt n 200); simpl; auto.
Qed.

(** C2. A number below 50 is classified Beginner, one from 50 up to but
    not including 200 Intermediate, one from 200 on Advanced; 49, 50, 199
    and 200 give Beginner, Intermediate, Intermediate and Advanced; every
    negative number gives Beginner. *)
Theorem determine_user_level_intervals (total_solved : number) :
  let x := number_value total_solved in
  (below x 50 -> determine_user_level total_solved = "Beginner")
  /\ (at_least x 50 -> below x 200 ->
      determine_user_level total_solved = "Intermediate")
  /\ (at_least x 200 -> determine_user_level total_solved = "Advanced")
  /\ (below x 0 -> determine_user_level total_solved = "Beginner")
  /\ determine_user_level (NInt 49) = "Beginner"
  /\ determine_user_level (NInt 50) = "Intermediate"
  /\ determine_user_level (NInt 199) = "Intermediate"
  /\ determine_user_level (NInt 200) = "Advanced".
Proof.
  intros x. unfold determine_user_level.
  assert (below x 50 -> num_lt total_solved 50 = true) as Hlow
    by apply num_lt_below.
  repeat split; try reflexivity.
  - intros H. now rewrite (Hlow H).
  - intros H50 H200. rewrite (num_lt_at_least _ _ H50).
    apply num_lt_below in H200. now rewrite H200.
  - intros H. rewrite (num_lt_at_least _ _ H).
    now rewrite (num_lt_at_least _ 50 (at_least_weaken _ 200 50 ltac:(lia) H)).
  - intros H. now rewrite (Hlow (below_weaken _ 0 50 ltac:(lia) H)).
Qed.

Lemma determine_user_level_intervals_witness :
  determine_user_level (NInt 12) = "Beginner"
  /\ determine_user_level (NFloat (S754_finite false 399 (-1))) = "Intermediate"
  /\ determine_user_level (NInt 1000) = "Advanced"
  /\ determine_user_level (NFloat (S754_infinity true)) = "Beginner".
Proof.
  split; [|split; [|split]].
  - apply (proj1 (determine_user_level_intervals (NInt 12))). reflexivity.
  - apply (proj1 (proj2 (determine_user_level_intervals
                           (NFloat (S754_finite false 399 (-1))))));
      [discriminate | reflexivity].
  - apply (proj1 (proj2 (proj2 (determine_user_level_intervals (NInt 1000))))).
    discriminate.
  - apply (proj1 (proj2 (proj2 (proj2 (determine_user_level_intervals
                                         (NFloat (S754_infinity true))))))).
    exact I.
Defined.

End Levels.

(* ================================================================= *)
(** ** Validation of the candidate *)

Section Validation.

Variable E : Env.

(** What the validator answers, by the shape of the parsed candidate. *)
Lemma validate_unparsable json_str msg :
  json_loads E json_str = inl msg ->
  validate_json_str E json_str
  = inl (Exn ValueError ("Invalid JSON response from AI: " ++ msg)).
Proof. intros H. unfold validate_json_str. now rewrite H. Qed.

Lemma validate_dict json_str d :
  json_loads E json_str = inr (VDict d) ->
  validate_json_str E json_str
  = if dict_has_key d "roadmap" then inr (VDict d)
    else inl (Exn ValueError "Response missing 'roadmap' field").
Proof.
  intros H. unfold validate_json_str, py_in. rewrite H.
  now destruct (dict_has_key d "roadmap").
Qed.

Lemma validate_list json_str l :
  json_loads E json_str = inr (VList l) ->
  In (VStr "roadmap") l ->
  validate_json_str E json_str = inr (VList l).
Proof.
  intros H Hin. unfold validate_json_str, py_in. rewrite H.
  assert (existsb (fun x => match x with
                            | VStr s => String.eqb "roadmap" s
                            | _ => false
                            end) l = true) as ->; [|reflexivity].
  apply existsb_exists. exists (VStr "roadmap"). now split.
Qed.

Lemma validate_text json_str s :
  json_loads E json_str = inr (VStr s) ->
  validate_json_str E json_str
  = if str_contains "roadmap" s then inr (VStr s)
    else inl (Exn ValueError "Response missing 'roadmap' field").
Proof.
  intros H. unfold validate_json_str, py_in. rewrite H.
  now destruct (str_contains "roadmap" s).
Qed.

Lemma validate_scalar json_str v :
  json_loads E json_str = inr v ->
  (v = VNone \/ (exists b, v = VBool b) \/ (exists z, v = VInt z)
   \/ exists f, v = VFloat f) ->
  validate_json_str E json_str = inl (builtin_error E TypeError v).
Proof.
  intros H Hv. unfold validate_json_str. rewrite H.
  destruct Hv as [->|[[b ->]|[[z ->]|[f ->]]]]; reflexivity.
Qed.

(** A value the validator returns is what the candidate parsed to, and it
    passed the [in] test. *)
Lemma validate_returns json_str roadmap :
  validate_json_str E json_str = inr roadmap ->
  json_loads E json_str = inr roadmap /\ py_in E "roadmap" roadmap = inr true.
Proof.
  unfold validate_json_str. destruct (json_loads E json_str) as [msg|v];
    [discriminate|].
  destruct (py_in E "roadmap" v) as [e|[|]] eqn:Hin; try discriminate.
  intros [= <-]. now split.
Qed.

(** A dict the validator returns has the field. *)
Lemma validated_dict_has_roadmap_field json_str d :
  validate_json_str E json_str = inr (VDict d) -> has_roadmap_field (VDict d).
Proof.
  intros H. apply validate_returns in H as [_ Hin].
  exists d. split; [reflexivity | now injection Hin].
Qed.

End Validation.

(** C4, at the input where the code parts from it: the candidate
    [["roadmap"]] parses to an array, which is no keyed structure, and the
    validator returns it instead of failing; a candidate that parses to a
    number fails with the [TypeError] of the [in] test, not with the
    [ValueError] of the two documented failures. *)
Lemma validate_accepts_array_naming_roadmap :
  json_loads (stub_env (inr doc_array)) doc_array = inr (VList [ VStr "roadmap" ])
  /\ ~ has_roadmap_field (VList [ VStr "roadmap" ])
  /\ validate_json_str (stub_env (inr doc_array)) doc_array
     = inr (VList [ VStr "roadmap" ])
  /\ validate_json_str (stub_env (inr doc_array)) "42"
     = inl (builtin_error (stub_env (inr doc_array)) TypeError (VInt 42))
  /\ validate_json_str (stub_env (inr doc_array)) doc_plan
     = inl (Exn ValueError "Response missing 'roadmap' field")
  /\ validate_json_str (stub_env (inr doc_array)) doc_roadmap
     = inr (VDict [ ("roadmap", VList []) ]).
Proof.
  split; [reflexivity|]. split; [|repeat split].
  intros (d & Hd & _). discriminate.
Qed.

(* ================================================================= *)
(** ** The handler *)

Section Handler.

Variable E : Env.

Lemma try_except_reraise (A : Type) (m : M A) :
  try_except m (fun e => raise e) = m.
Proof.
  destruct m as [log [e|a]]; simpl; [now rewrite app_nil_r | reflexivity].
Qed.

Lemma bind_lift (A B : Type) (r : result A) (k : A -> M B) :
  bind (lift r) k = match r with
                    | inl e => ([], inl e)
                    | inr a => k a
                    end.
Proof.
  destruct r as [e|a]; simpl; [reflexivity|]. now destruct (k a).
Qed.

(** What is read out of the payload of the model and handed to the parser. *)
Lemma generate_learning_roadmap_steps weak_topics user_level :
  generate_learning_roadmap E weak_topics user_level =
  match build_prompt E weak_topics user_level with
  | inl e => ([], inl e)
  | inr prompt =>
      let body := json_dumps E (request_body prompt) in
      ([(MODEL_ID, body)],
       and_then (invoke_model E MODEL_ID body) (fun payload =>
       and_then (loads E payload) (fun response_body =>
       and_then (getitem_key E response_body "content") (fun content =>
       and_then (getitem_index E content 0) (fun first =>
       and_then (getitem_key E first "text") (fun ai_response =>
       parse_ai_response_value E ai_response))))))
  end.
Proof.
  unfold generate_learning_roadmap. rewrite try_except_reraise, bind_lift.
  destruct (build_prompt E weak_topics user_level) as [e|prompt]; [reflexivity|].
  unfold call_model, bind at 1.
  destruct (invoke_model E MODEL_ID (json_dumps E (request_body prompt)))
    as [e|payload]; [reflexivity|].
  cbv zeta. unfold and_then at 1. rewrite bind_lift.
  destruct (loads E payload) as [e|response_body]; [reflexivity|].
  unfold and_then at 1. rewrite bind_lift.
  destruct (getitem_key E response_body "content") as [e|content]; [reflexivity|].
  unfold and_then at 1. rewrite bind_lift.
  destruct (getitem_index E content 0) as [e|first]; [reflexivity|].
  unfold and_then at 1. rewrite bind_lift.
  destruct (getitem_key E first "text") as [e|ai_response]; [reflexivity|].
  unfold and_then at 1. rewrite bind_lift.
  destruct (parse_ai_response_value E ai_response) as [e|roadmap]; reflexivity.
Qed.


(** A failure of the model call leaves [generate_learning_roadmap] as it
    was raised. *)
Lemma model_failure_propagates weak_topics user_level prompt e :
  build_prompt E weak_topics user_level = inr prompt ->
  invoke_model E MODEL_ID (json_dumps E (request_body prompt)) = inl e ->
  generate_learning_roadmap E weak_topics user_level
  = ([(MODEL_ID, json_dumps E (request_body prompt))], inl e).
Proof.
  intros Hp He. rewrite generate_learning_roadmap_steps, Hp. cbv zeta.
  now rewrite He.
Qed.

(** A roadmap that comes back was validated: the reply was a [str], and
    the roadmap is what [parse_ai_response] made of it. *)
Lemma generate_learning_roadmap_returns weak_topics user_level log roadmap :
  generate_learning_roadmap E weak_topics user_level = (log, inr roadmap) ->
  exists reply, parse_ai_response E reply = inr roadmap.
Proof.
  rewrite generate_learning_roadmap_steps.
  destruct (build_prompt E weak_topics user_level) as [e|prompt]; [discriminate|].
  cbv zeta. unfold and_then.
  destruct (invoke_model E MODEL_ID _) as [e|payload]; [discriminate|].
  destruct (loads E payload) as [e|response_body]; [discriminate|].
  destruct (getitem_key E response_body "content") as [e|content]; [discriminate|].
  destruct (getitem_index E content 0) as [e|first]; [discriminate|].
  destruct (getitem_key E first "text") as [e|ai_response]; [discriminate|].
  destruct ai_response as [ |b|z|f|s|l|d]; try discriminate.
  simpl. intros [= _ H]. now exists s.
Qed.

(** The success response, as the handler builds it. *)
Lemma lambda_handler_body_validated event topics n :
  dict_get_default event "weak_topics" (VList []) = VList topics ->
  topics <> [] ->
  as_number (dict_get_default event "total_solved" (VInt 0)) = Some n ->
  lambda_handler_body E event =
  bind (generate_learning_roadmap E topics (determine_user_level n))
    (fun roadmap =>
       ret (VDict
              [ ("statusCode", VInt 200);
                ("body",
                  VStr (json_dumps E
                          (VDict
                             [ ("message", VStr "Learning roadmap generated successfully");
                               ("user_level", VStr (determine_user_level n));
                               ("total_solved", dict_get_default event "total_solved" (VInt 0));
                               ("weak_topics", VList topics);
                               ("roadmap", roadmap);
                               ("generated_at", VStr (utcnow_isoformat E)) ]))) ])).
Proof.
  intros Hw Hne Hn. unfold lambda_handler_body. rewrite Hw, Hn.
  destruct topics as [|t topics]; [congruence | reflexivity].
Qed.

End Handler.

(* ================================================================= *)
(** ** Input validation *)

Section InputValidation.

Variable E : Env.

(** Whatever is falsy under [weak_topics] stops the handler at once. *)
Lemma falsy_weak_topics_rejected event :
  truthy (dict_get_default event "weak_topics" (VList [])) = false ->
  lambda_handler E event
  = ([], error_response E 400 "weak_topics is required and cannot be empty").
Proof.
  intros H. unfold lambda_handler, lambda_handler_body. now rewrite H.
Qed.

(** C1. When [weak_topics] is absent or an empty list, the handler answers
    with the status-400 error and the model is never called. *)
Theorem empty_weak_topics_rejected (event : dict) :
  dict_get event "weak_topics" = None
  \/ dict_get event "weak_topics" = Some (VList []) ->
  lambda_handler E event
  = ([], error_response E 400 "weak_topics is required and cannot be empty")
  /\ response_field (snd (lambda_handler E event)) "statusCode" = Some (VInt 400)
  /\ fst (lambda_handler E event) = [].
Proof.
  intros H.
  assert (lambda_handler E event
          = ([], error_response E 400 "weak_topics is required and cannot be empty"))
    as Hr.
  { apply falsy_weak_topics_rejected. unfold dict_get_default.
    destruct H as [-> | ->]; reflexivity. }
  rewrite Hr. repeat split.
Qed.

(** A value under [total_solved] that is neither [int] nor [float] stops
    the handler with a status-400 error, whatever [weak_topics] is. *)
Lemma non_number_total_solved_rejected event v :
  dict_get event "total_solved" = Some v ->
  is_number v = false ->
  exists message, lambda_handler E event = ([], error_response E 400 message).
Proof.
  intros Hv Hnum. unfold lambda_handler, lambda_handler_body.
  assert (dict_get_default event "total_solved" (VInt 0) = v) as ->
    by (unfold dict_get_default; now rewrite Hv).
  unfold is_number in Hnum. destruct (as_number v); [discriminate|].
  generalize (dict_get_default event "weak_topics" (VList [])). intros w.
  destruct (truthy w); [|simpl; eauto].
  destruct w; simpl; eauto.
Qed.

(** C5, as the code has it. [total_solved] is optional: without the key the
    handler does what it does for [0]. With the key, a value that is
    neither [int] nor [float] is refused with status 400 and no call of the
    model; the message names [total_solved] when [weak_topics] is a
    non-empty list. *)
Theorem total_solved_defaults_to_zero_and_is_checked (event : dict) :
  (dict_get event "total_solved" = None ->
   lambda_handler E event = lambda_handler E (("total_solved", VInt 0) :: event))
  /\ (forall v, dict_get event "total_solved" = Some v -> is_number v = false ->
      exists message,
        lambda_handler E event = ([], error_response E 400 message))
  /\ (forall v topics,
      dict_get event "total_solved" = Some v -> is_number v = false ->
      dict_get event "weak_topics" = Some (VList topics) -> topics <> [] ->
      lambda_handler E event
      = ([], error_response E 400 "total_solved must be a number")).
Proof.
  split; [|split].
  - intros H. unfold lambda_handler, lambda_handler_body, dict_get_default.
    cbn [dict_get]. change (String.eqb "weak_topics" "total_solved") with false.
    change (String.eqb "total_solved" "total_solved") with true.
    cbv iota. now rewrite H.
  - apply non_number_total_solved_rejected.
  - intros v topics Hv Hnum Hw Hne.
    unfold lambda_handler, lambda_handler_body, dict_get_default.
    rewrite Hv, Hw. unfold is_number in Hnum.
    destruct (as_number v); [discriminate|].
    destruct topics; [congruence | reflexivity].
Qed.

End InputValidation.

Lemma empty_weak_topics_rejected_witness :
  dict_get event_no_topics "weak_topics" = None
  /\ dict_get event_empty_topics "weak_topics" = Some (VList [])
  /\ fst (lambda_handler (stub_env (inr reply_fenced)) event_no_topics) = []
  /\ response_field
       (snd (lambda_handler (stub_env (inr reply_fenced)) event_empty_topics))
       "statusCode" = Some (VInt 400).
Proof.
  split; [reflexivity|]. split; [reflexivity|]. split.
  - apply (empty_weak_topics_rejected (stub_env (inr reply_fenced)) event_no_topics).
    left. reflexivity.
  - apply (empty_weak_topics_rejected (stub_env (inr reply_fenced)) event_empty_topics).
    right. reflexivity.
Defined.

(** C5 fails as stated: an event without [total_solved] is not refused.
    The model is called, and the answer is the success response for a
    Beginner with [total_solved] 0. *)
Lemma absent_total_solved_is_accepted :
  dict_get event_no_total "total_solved" = None
  /\ lambda_handler (stub_env (inr reply_fenced)) event_no_total
     = ([ (MODEL_ID,
           json_dumps (stub_env (inr reply_fenced))
             (request_body (prompt_text "Beginner" "Dynamic Programming"))) ],
        VDict
          [ ("statusCode", VInt 200);
            ("body",
              VStr (json_dumps (stub_env (inr reply_fenced))
                      (VDict
                         [ ("message", VStr "Learning roadmap generated successfully");
                           ("user_level", VStr "Beginner");
                           ("total_solved", VInt 0);
                           ("weak_topics", VList [ VStr "Dynamic Programming" ]);
                           ("roadmap", VDict [ ("roadmap", VList []) ]);
                           ("generated_at", VStr "2024-05-01T12:00:00") ]))) ]).
Proof. split; reflexivity. Qed.

Lemma total_solved_defaults_to_zero_and_is_checked_witness :
  lambda_handler (stub_env (inr reply_fenced)) event_no_total
  = lambda_handler (stub_env (inr reply_fenced))
      (("total_solved", VInt 0) :: event_no_total)
  /\ lambda_handler (stub_env (inr reply_fenced)) event_text_total
     = ([], error_response (stub_env (inr reply_fenced)) 400
              "total_solved must be a number").
Proof.
  pose proof (total_solved_defaults_to_zero_and_is_checked
                (stub_env (inr reply_fenced)) event_no_total) as (H0 & _ & _).
  pose proof (total_solved_defaults_to_zero_and_is_checked
                (stub_env (inr reply_fenced)) event_text_total) as (_ & _ & H1).
  split.
  - apply H0. reflexivity.
  - apply (H1 (VStr "150") [ VStr "Dynamic Programming" ]);
      [reflexivity | reflexivity | reflexivity | discriminate].
Defined.

(* ================================================================= *)
(** ** Outcomes of a run *)

Section Outcomes.

Variable E : Env.

(** A truthy list under [weak_topics] is a key of the event and is not
    empty. *)
Lemma weak_topics_present event topics :
  dict_get_default event "weak_topics" (VList []) = VList topics ->
  truthy (VList topics) = true ->
  dict_get event "weak_topics" = Some (VList topics) /\ topics <> [].
Proof.
  unfold dict_get_default. intros H Ht.
  assert (topics <> []) as Hne by (intros ->; discriminate).
  split; [|exact Hne].
  destruct (dict_get event "weak_topics") as [v|]; [now rewrite H|].
  injection H as <-. congruence.
Qed.

(** The three ways a run ends: refused before any stage runs; a stage
    raised; or a roadmap was validated and the success response built. *)
Lemma lambda_handler_outcome event :
  (exists message,
      lambda_handler E event = ([], error_response E 400 message))
  \/ (exists log e,
      lambda_handler_body E event = (log, inl e)
      /\ lambda_handler E event
         = (log, error_response E 500 ("Internal server error: " ++ exn_str e)))
  \/ (exists log topics n roadmap,
      dict_get event "weak_topics" = Some (VList topics)
      /\ as_number (dict_get_default event "total_solved" (VInt 0)) = Some n
      /\ generate_learning_roadmap E topics (determine_user_level n)
         = (log, inr roadmap)
      /\ lambda_handler E event
         = (log,
            VDict
              [ ("statusCode", VInt 200);
                ("body",
                  VStr (json_dumps E
                          (VDict
                             [ ("message", VStr "Learning roadmap generated successfully");
                               ("user_level", VStr (determine_user_level n));
                               ("total_solved", dict_get_default event "total_solved" (VInt 0));
                               ("weak_topics", VList topics);
                               ("roadmap", roadmap);
                               ("generated_at", VStr (utcnow_isoformat E)) ]))) ])).
Proof.
  destruct (truthy (dict_get_default event "weak_topics" (VList []))) eqn:Ht.
  2:{ left. eexists. now apply falsy_weak_topics_rejected. }
  destruct (dict_get_default event "weak_topics" (VList [])) as [ |b|z|f|s|topics|d]
    eqn:Hw;
    try (left; eexists; unfold lambda_handler, lambda_handler_body;
         rewrite Hw, Ht; reflexivity).
  destruct (weak_topics_present event topics Hw Ht) as [Hkey Hne].
  destruct (as_number (dict_get_default event "total_solved" (VInt 0))) as [n|]
    eqn:Hn.
  2:{ left. eexists. unfold lambda_handler, lambda_handler_body.
      rewrite Hw, Ht, Hn. reflexivity. }
  right. unfold lambda_handler.
  rewrite (lambda_handler_body_validated E event topics n Hw Hne Hn).
  destruct (generate_learning_roadmap E topics (determine_user_level n))
    as [log [e|roadmap]] eqn:Hg.
  - left. exists log, e. split; reflexivity.
  - right. exists log, topics, n, roadmap. simpl. rewrite app_nil_r.
    repeat split; assumption.
Qed.


(** C8, as the code has it. A response with status 200 has two fields,
    [statusCode] and [body]; [body] is the serialisation of a keyed
    structure that carries the message, the level (one of the three names),
    [total_solved] as given (or 0 without the key), [weak_topics] as given,
    the roadmap as the validator returned it, and the time of the run. *)
Theorem success_response_carries_fields_in_body
    (event : dict) (log : list call) (response : pyvalue) :
  lambda_handler E event = (log, response) ->
  response_field response "statusCode" = Some (VInt 200) ->
  exists topics n roadmap reply,
    dict_get event "weak_topics" = Some (VList topics)
    /\ as_number (dict_get_default event "total_solved" (VInt 0)) = Some n
    /\ In (determine_user_level n) ["Beginner"; "Intermediate"; "Advanced"]
    /\ parse_ai_response E reply = inr roadmap
    /\ response
       = VDict
           [ ("statusCode", VInt 200);
             ("body",
               VStr (json_dumps E
                       (VDict
                          [ ("message", VStr "Learning roadmap generated successfully");
                            ("user_level", VStr (determine_user_level n));
                            ("total_solved", dict_get_default event "total_solved" (VInt 0));
                            ("weak_topics", VList topics);
                            ("roadmap", roadmap);
                            ("generated_at", VStr (utcnow_isoformat E)) ]))) ].
Proof.
  intros Hr Hs.
  destruct (lambda_handler_outcome event)
    as [[m H] | [(log' & e & _ & H) | (log' & topics & n & r & Hw & Hn & Hg & H)]];
    rewrite H in Hr; injection Hr as <- <-; try discriminate.
  destruct (generate_learning_roadmap_returns E _ _ _ _ Hg) as [reply Hp].
  exists topics, n, r, reply. repeat split; try assumption.
  apply determine_user_level_range.
Qed.

End Outcomes.

(* ================================================================= *)
(** ** Worked runs *)


Lemma success_response_carries_fields_in_body_witness :
  response_field (snd (lambda_handler (stub_env (inr reply_fenced)) event_profile))
    "statusCode" = Some (VInt 200)
  /\ exists topics n roadmap reply,
      dict_get event_profile "weak_topics" = Some (VList topics)
      /\ as_number (dict_get_default event_profile "total_solved" (VInt 0)) = Some n
      /\ In (determine_user_level n) ["Beginner"; "Intermediate"; "Advanced"]
      /\ parse_ai_response (stub_env (inr reply_fenced)) reply = inr roadmap
      /\ snd (lambda_handler (stub_env (inr reply_fenced)) event_profile)
         = VDict
             [ ("statusCode", VInt 200);
               ("body",
                 VStr (json_dumps (stub_env (inr reply_fenced))
                         (VDict
                            [ ("message", VStr "Learning roadmap generated successfully");
                              ("user_level", VStr (determine_user_level n));
                              ("total_solved",
                                dict_get_default event_profile "total_solved" (VInt 0));
                              ("weak_topics", VList topics);
                              ("roadmap", roadmap);
                              ("generated_at",
                                VStr (utcnow_isoformat (stub_env (inr reply_fenced)))) ]))) ].
Proof.
  split; [reflexivity|].
  apply (success_response_carries_fields_in_body
           (stub_env (inr reply_fenced)) event_profile
           (fst (lambda_handler (stub_env (inr reply_fenced)) event_profile))
           (snd (lambda_handler (stub_env (inr reply_fenced)) event_profile)));
    reflexivity.
Defined.

(** C8 fails as stated: the success response has the two fields
    [statusCode] and [body] and no others; the level, the echoed input, the
    roadmap and the time are not fields of it. *)
Lemma success_response_has_two_fields :
  response_field (snd (lambda_handler (stub_env (inr reply_fenced)) event_profile))
    "statusCode" = Some (VInt 200)
  /\ response_keys (snd (lambda_handler (stub_env (inr reply_fenced)) event_profile))
     = ["statusCode"; "body"]
  /\ response_field (snd (lambda_handler (stub_env (inr reply_fenced)) event_profile))
       "user_level" = None
  /\ response_field (snd (lambda_handler (stub_env (inr reply_fenced)) event_profile))
       "total_solved" = None
  /\ response_field (snd (lambda_handler (stub_env (inr reply_fenced)) event_profile))
       "weak_topics" = None
  /\ response_field (snd (lambda_handler (stub_env (inr reply_fenced)) event_profile))
       "roadmap" = None
  /\ response_field (snd (lambda_handler (stub_env (inr reply_fenced)) event_profile))
       "generated_at" = None.
Proof. repeat split. Qed.

(** C6, at the input where the code parts from it: the model replies with
    the array [["roadmap"]]. The run ends with status 200, and the roadmap
    of the response is that array, which has no field [roadmap]. *)
Lemma array_reply_is_returned_as_roadmap :
  ~ has_roadmap_field (VList [ VStr "roadmap" ])
  /\ lambda_handler (stub_env (inr doc_array)) event_profile
     = ([ (MODEL_ID,
           json_dumps (stub_env (inr doc_array))
             (request_body
                (prompt_text "Intermediate" "Dynamic Programming, Graph Algorithms"))) ],
        VDict
          [ ("statusCode", VInt 200);
            ("body",
              VStr (json_dumps (stub_env (inr doc_array))
                      (VDict
                         [ ("message", VStr "Learning roadmap generated successfully");
                           ("user_level", VStr "Intermediate");
                           ("total_solved", VInt 150);
                           ("weak_topics",
                             VList [ VStr "Dynamic Programming"; VStr "Graph Algorithms" ]);
                           ("roadmap", VList [ VStr "roadmap" ]);
                           ("generated_at", VStr "2024-05-01T12:00:00") ]))) ]).
Proof.
  split; [|reflexivity]. intros (d & Hd & _). discriminate.
Qed.

(* ================================================================= *)
(** ** More on extraction *)

Section ExtractionShape.

Implicit Types s t raw sub : string.

Lemma occurs_at_append sub t u k : occurs_at sub t k -> occurs_at sub (t ++ u) k.
Proof.
  intros (pre & post & -> & Hk). exists pre, (post ++ u).
  split; [now rewrite !append_assoc | exact Hk].
Qed.

Lemma length_take_le n t : (String.length (take n t) <= n)%nat.
Proof.
  revert t; induction n as [|n IH]; intros [|c t]; simpl; try lia.
  specialize (IH t). lia.
Qed.

(** An occurrence inside [t[:n]] is an occurrence in [t] that ends by [n]. *)
Lemma occurs_at_take sub n t k :
  occurs_at sub (take n t) k ->
  occurs_at sub t k /\ (k + String.length sub <= n)%nat.
Proof.
  intros H. split.
  - rewrite <- (take_drop n t). now apply occurs_at_append.
  - apply occurs_at_bound in H. pose proof (length_take_le n t). lia.
Qed.

Lemma str_slice_inside s a b : exists pre post, s = pre ++ str_slice s a b ++ post.
Proof.
  unfold str_slice.
  set (lo := Z.to_nat (adjust_index (Z.of_nat (String.length s)) a)).
  set (n := Z.to_nat _).
  exists (take lo s), (drop n (drop lo s)).
  now rewrite (take_drop n (drop lo s)), take_drop.
Qed.

(** What is cut out after an opening delimiter holds no delimiter, whether
    a closing one was found or not. *)
Lemma slice_after_opening_clean s (a : nat) :
  (a <= String.length s)%nat ->
  ~ occurs fence (str_slice s (Z.of_nat a) (str_find s fence (Z.of_nat a))).
Proof.
  intros Ha [m Hm]. rewrite str_find_from in Hm by exact Ha.
  destruct (find_at fence (drop a s)) as [k|] eqn:Hf.
  - apply find_at_first in Hf as [Hk Hmin].
    assert (a + k <= String.length s)%nat as Hlen.
    { apply occurs_at_bound in Hk. rewrite length_drop in Hk. lia. }
    rewrite str_slice_between in Hm by lia.
    unfold between in Hm. rewrite <- take_substring in Hm.
    replace (a + k - a)%nat with k in Hm by lia.
    apply occurs_at_take in Hm as [Hocc Hend].
    apply (Hmin m); [simpl in Hend; lia | exact Hocc].
  - rewrite str_slice_to_last in Hm by exact Ha.
    rewrite <- take_all_but_last in Hm.
    apply occurs_at_take in Hm as [Hocc _].
    apply find_at_none in Hf. apply Hf. now exists m.
Qed.

(** Every candidate is the trimmed form of a part of the reply, and that
    part holds no delimiter. *)
Lemma extract_json_str_shape raw :
  exists part,
    extract_json_str raw = strip part
    /\ (exists pre post, raw = pre ++ part ++ post)
    /\ ~ occurs fence part.
Proof.
  unfold extract_json_str.
  destruct (str_contains fence_json raw) eqn:Hjson.
  - rewrite str_contains_find in Hjson.
    destruct (find_at fence_json raw) as [i|] eqn:Hf; [|discriminate].
    apply find_at_first in Hf.
    rewrite (str_find_first _ _ _ Hf).
    change (Z.of_nat i + 7) with (Z.of_nat i + Z.of_nat 7).
    rewrite <- Nat2Z.inj_add.
    eexists. split; [reflexivity|]. split; [apply str_slice_inside|].
    apply slice_after_opening_clean.
    destruct Hf as [Hocc _]. apply occurs_at_bound in Hocc. exact Hocc.
  - destruct (str_contains fence raw) eqn:Hany.
    + rewrite str_contains_find in Hany.
      destruct (find_at fence raw) as [i|] eqn:Hf; [|discriminate].
      apply find_at_first in Hf.
      rewrite (str_find_first _ _ _ Hf).
      change (Z.of_nat i + 3) with (Z.of_nat i + Z.of_nat 3).
      rewrite <- Nat2Z.inj_add.
      eexists. split; [reflexivity|]. split; [apply str_slice_inside|].
      apply slice_after_opening_clean.
      destruct Hf as [Hocc _]. apply occurs_at_bound in Hocc. exact Hocc.
    + exists raw. split; [reflexivity|]. split.
      * exists EmptyString, EmptyString. simpl.
        clear. induction raw as [|c r IH]; simpl; [reflexivity | now rewrite <- IH].
      * now apply str_contains_false.
Qed.

(** X1. Whatever the reply, the candidate handed to the validator is a
    contiguous part of the reply, with no white space at either end:
    extraction never adds or rearranges text. *)
Theorem extract_json_str_is_trimmed_part (raw : string) :
  (exists pre post, raw = pre ++ extract_json_str raw ++ post)
  /\ starts_with_space (extract_json_str raw) = false
  /\ ends_with_space (extract_json_str raw) = false.
Proof.
  destruct (extract_json_str_shape raw) as (part & -> & (pre & post & Hraw) & _).
  destruct (strip_spec part) as (l & r & Hpart & _ & _ & Hst & Hend).
  split; [|split; assumption].
  exists (pre ++ l), (r ++ post).
  rewrite Hraw at 1. rewrite Hpart at 1. now rewrite !append_assoc.
Qed.

(** X2. Whatever the reply, the candidate holds no fence delimiter, so
    extracting from a candidate gives the candidate back: extraction is
    idempotent on every reply, not only on clean text. *)
Theorem extract_json_str_idempotent (raw : string) :
  ~ occurs fence (extract_json_str raw)
  /\ extract_json_str (extract_json_str raw) = extract_json_str raw.
Proof.
  destruct (extract_json_str_shape raw) as (part & Hpart & _ & Hclean).
  assert (~ occurs fence (extract_json_str raw)) as Hno.
  { rewrite Hpart. intros H. apply Hclean. now apply occurs_strip in H. }
  split; [exact Hno|].
  rewrite (extract_no_fence _ Hno), Hpart. apply strip_idempotent.
Qed.

(** X3. A plain fence that is never closed is treated as the tagged one is:
    without any tagged fence, with the first delimiter at [i] and none
    after it, the search answers [-1] and the candidate is the text after
    the delimiter without the last character of the reply, trimmed. *)
Theorem unclosed_plain_fence_drops_last_character (s : string) (i : nat) :
  ~ occurs fence_json s ->
  first_occurrence fence s i ->
  (forall j, (i + 3 <= j)%nat -> ~ occurs_at fence s j) ->
  str_find s fence (Z.of_nat i + 3) = -1
  /\ extract_json_str s = strip (drop_last (drop (i + 3) s)).
Proof.
  intros Hno Hi Hnone.
  assert (i + 3 <= String.length s)%nat as Hlen.
  { destruct Hi as [Hocc _]. apply occurs_at_bound in Hocc. exact Hocc. }
  assert (Z.of_nat i + 3 = Z.of_nat (i + 3)) as Hstart by lia.
  assert (str_find s fence (Z.of_nat i + 3) = -1) as Hfind.
  { rewrite Hstart. now apply str_find_missing. }
  split; [exact Hfind|].
  unfold extract_json_str.
  apply str_contains_false in Hno. rewrite Hno.
  assert (str_contains fence s = true) as ->.
  { apply str_contains_occurs. exists i. apply Hi. }
  rewrite (str_find_first _ _ _ Hi), Hfind, Hstart.
  now rewrite str_slice_to_last.
Qed.

Lemma unclosed_plain_fence_drops_last_character_witness :
  extract_json_str (fence ++ nl ++ doc_roadmap ++ "]") = doc_roadmap.
Proof.
  refine (proj2 (unclosed_plain_fence_drops_last_character
                   (fence ++ nl ++ doc_roadmap ++ "]") 0 _ _ _)).
  - apply str_contains_false. reflexivity.
  - apply find_at_first. reflexivity.
  - intros j Hj Hocc.
    assert (find_at fence (drop 3 (fence ++ nl ++ doc_roadmap ++ "]")) = None)
      as Hf by reflexivity.
    apply find_at_none in Hf. apply Hf. exists (j - 3)%nat.
    apply occurs_at_drop; [simpl; lia|].
    now replace (3 + (j - 3))%nat with j by lia.
Defined.

End ExtractionShape.

(* ================================================================= *)
(** ** What the validator lets through *)

Section Acceptance.

Variable E : Env.

Lemma py_in_names_roadmap v b :
  py_in E "roadmap" v = inr b -> names_roadmap v = b.
Proof.
  destruct v; simpl; intros H; try discriminate; now injection H.
Qed.

Lemma names_roadmap_py_in v :
  names_roadmap v = true -> py_in E "roadmap" v = inr true.
Proof.
  destruct v; simpl; intros H; try discriminate; now rewrite H.
Qed.

(** X4. [parse_ai_response] returns a value exactly when the candidate cut
    out of the reply parses and the parsed value passes the [in] test: a
    dict with the key [roadmap], a list with the item ['roadmap'], or a
    text containing [roadmap]. The value returned is the parsed one,
    unchanged; nothing below the top level is looked at. *)
Theorem parse_ai_response_accepts_iff (raw : string) (v : pyvalue) :
  parse_ai_response E raw = inr v
  <-> json_loads E (extract_json_str raw) = inr v /\ names_roadmap v = true.
Proof.
  unfold parse_ai_response, validate_json_str.
  destruct (json_loads E (extract_json_str raw)) as [msg|w].
  - split; [discriminate | intros [H _]; discriminate].
  - split.
    + destruct (py_in E "roadmap" w) as [e|[|]] eqn:Hin; try discriminate.
      intros [= <-]. split; [reflexivity|].
      now apply py_in_names_roadmap in Hin.
    + intros [[= <-] Hn]. now rewrite (names_roadmap_py_in _ Hn).
Qed.

End Acceptance.

(* ================================================================= *)
(** ** The prompt *)

Section Prompt.

Variable E : Env.

Implicit Types s t sep : string.

Lemma append_nil_r s : s ++ EmptyString = s.
Proof. induction s as [|c s IH]; simpl; [reflexivity | now rewrite IH]. Qed.

Lemma occurs_middle t pre post : occurs t (pre ++ t ++ post).
Proof. exists (String.length pre), pre, post. now split. Qed.

Lemma occurs_self t : occurs t t.
Proof.
  exists 0%nat, EmptyString, EmptyString. simpl. now rewrite append_nil_r.
Qed.

Lemma concat_cons sep x y ys :
  String.concat sep (x :: y :: ys) = x ++ sep ++ String.concat sep (y :: ys).
Proof. reflexivity. Qed.

(** Each joined string occurs in the join. *)
Lemma occurs_concat sep ss t : In t ss -> occurs t (String.concat sep ss).
Proof.
  induction ss as [|x [|y ys] IH]; intros Hin.
  - destruct Hin.
  - destruct Hin as [->|[]]. apply occurs_self.
  - rewrite concat_cons. destruct Hin as [->|Hin].
    + apply (occurs_middle t EmptyString).
    + rewrite <- append_assoc, <- (append_nil_r (String.concat sep (y :: ys))).
      apply occurs_inside. now apply IH.
Qed.

(** [all_strings] succeeds exactly on lists of [str], and then lists
    their texts in order. *)
Lemma all_strings_inr l ss : all_strings l = inr ss -> l = map VStr ss.
Proof.
  revert ss; induction l as [|v l IH]; intros ss; simpl.
  - now intros [= <-].
  - destruct v; try discriminate.
    destruct (all_strings l) as [w|ss']; [discriminate|].
    intros [= <-]. simpl. now rewrite (IH ss' eq_refl).
Qed.


Lemma all_strings_map ss : all_strings (map VStr ss) = inr ss.
Proof.
  induction ss as [|s ss IH]; simpl; [reflexivity | now rewrite IH].
Qed.

(** The two lines of the prompt that depend on the user. *)
Lemma prompt_text_lines level topics_str :
  prompt_text level topics_str
  = take 102 (prompt_text EmptyString EmptyString)
      ++ ("- Skill Level: " ++ level) ++ nl
      ++ ("- Weak Topics: " ++ topics_str)
      ++ drop 133 (prompt_text EmptyString EmptyString).
Proof. vm_compute. reflexivity. Qed.

(** X5. When [build_prompt] returns, the prompt carries the line
    [- Skill Level: <level>] and the line [- Weak Topics: <topics joined
    by ", ">]; every topic is a [str] and occurs in the prompt. *)
Theorem build_prompt_names_level_and_topics
    (weak_topics : list pyvalue) (user_level prompt : string) :
  build_prompt E weak_topics user_level = inr prompt ->
  exists topics,
    weak_topics = map VStr topics
    /\ occurs ("- Skill Level: " ++ user_level ++ nl) prompt
    /\ occurs ("- Weak Topics: " ++ String.concat ", " topics ++ nl) prompt
    /\ forall t, In t topics -> occurs t prompt.
Proof.
  unfold build_prompt, str_join.
  destruct (all_strings weak_topics) as [v|topics] eqn:Hall; [discriminate|].
  intros [= <-]. exists topics.
  split; [now apply all_strings_inr|].
  rewrite prompt_text_lines.
  set (head := take 102 _). set (tail := drop 133 _).
  assert (tail = nl ++ drop 134 (prompt_text EmptyString EmptyString)) as ->
    by reflexivity.
  set (tail' := drop 134 _).
  split; [|split].
  - exists (String.length head), head,
      (("- Weak Topics: " ++ String.concat ", " topics) ++ nl ++ tail').
    split; [|reflexivity]. now rewrite !append_assoc.
  - exists (String.length (head ++ ("- Skill Level: " ++ user_level) ++ nl)),
      (head ++ ("- Skill Level: " ++ user_level) ++ nl), tail'.
    split; [|reflexivity]. now rewrite !append_assoc.
  - intros t Hin. apply (occurs_concat ", ") in Hin.
    destruct Hin as (k & a & b & Hab & _).
    rewrite Hab.
    exists (String.length (head ++ ("- Skill Level: " ++ user_level) ++ nl
                                ++ "- Weak Topics: " ++ a)),
      (head ++ ("- Skill Level: " ++ user_level) ++ nl ++ "- Weak Topics: " ++ a),
      (b ++ nl ++ tail').
    split; [|reflexivity]. now rewrite !append_assoc.
Qed.

End Prompt.

Lemma build_prompt_names_level_and_topics_witness :
  occurs ("- Skill Level: " ++ "Intermediate" ++ nl)
    (prompt_text "Intermediate" "Dynamic Programming, Graph Algorithms")
  /\ occurs "Graph Algorithms"
       (prompt_text "Intermediate" "Dynamic Programming, Graph Algorithms").
Proof.
  destruct (build_prompt_names_level_and_topics
              (stub_env (inr reply_fenced))
              [ VStr "Dynamic Programming"; VStr "Graph Algorithms" ]
              "Intermediate"
              (prompt_text "Intermediate" "Dynamic Programming, Graph Algorithms")
              eq_refl)
    as (topics & Htopics & Hlevel & _ & Hall).
  split; [exact Hlevel|].
  destruct topics as [|a [|b [|c rest]]]; try discriminate.
  injection Htopics as <- <-. apply Hall. right. now left.
Defined.

(* ================================================================= *)
(** ** Calls of the model *)

Section ModelCalls.

Variable E : Env.

Lemma build_prompt_all_strings topics level ss :
  all_strings topics = inr ss ->
  build_prompt E topics level = inr (prompt_text level (String.concat ", " ss)).
Proof. intros H. unfold build_prompt, str_join. now rewrite H. Qed.




(** X7. For an event that passes validation and whose topics are all
    [str], the model is called exactly once, whatever happens afterwards:
    with the fixed model id and the serialised request that carries the
    prompt for the level and the topics joined by ", ". *)
Theorem valid_event_calls_model_once
    (event : dict) (topics : list string) (n : number) :
  dict_get event "weak_topics" = Some (VList (map VStr topics)) ->
  topics <> [] ->
  as_number (dict_get_default event "total_solved" (VInt 0)) = Some n ->
  fst (lambda_handler E event)
  = [ (MODEL_ID,
       json_dumps E
         (request_body
            (prompt_text (determine_user_level n) (String.concat ", " topics)))) ].
Proof.
  intros Hw Hne Hn. unfold lambda_handler.
  rewrite (lambda_handler_body_validated E event (map VStr topics) n);
    try assumption.
  - rewrite generate_learning_roadmap_steps.
    rewrite (build_prompt_all_strings _ _ _ (all_strings_map topics)).
    cbv zeta. unfold bind.
    destruct (and_then _ _) as [e|roadmap]; reflexivity.
  - unfold dict_get_default. now rewrite Hw.
  - destruct topics; [congruence | discriminate].
Qed.

(** A roadmap comes back only after the one call. *)
Lemma generate_learning_roadmap_returns_after_call topics level log roadmap :
  generate_learning_roadmap E topics level = (log, inr roadmap) ->
  List.length log = 1%nat.
Proof.
  rewrite generate_learning_roadmap_steps.
  destruct (build_prompt E topics level) as [e|prompt]; [discriminate|].
  cbv zeta. now intros [= <- _].
Qed.

(** X8. The status tells how often the model was called: never for a
    status-400 answer, exactly once for a status-200 answer. *)
Theorem status_tells_model_calls (event : dict) :
  (response_field (snd (lambda_handler E event)) "statusCode" = Some (VInt 400) ->
   fst (lambda_handler E event) = [])
  /\ (response_field (snd (lambda_handler E event)) "statusCode" = Some (VInt 200) ->
      List.length (fst (lambda_handler E event)) = 1%nat).
Proof.
  destruct (lambda_handler_outcome E event)
    as [[m ->] | [(log & e & _ & ->) | (log & topics & n & r & _ & _ & Hg & ->)]];
    simpl; split; intros H; try discriminate; try reflexivity.
  now apply generate_learning_roadmap_returns_after_call in Hg.
Qed.

(** X9. The answer has status 400 exactly when [weak_topics] is falsy or
    no list, or [total_solved] is neither [int] nor [float] (a [bool]
    counts as [int]); an absent key counts as [[]] and as [0]. *)
Theorem status_400_iff_input_invalid (event : dict) :
  let weak_topics := dict_get_default event "weak_topics" (VList []) in
  let total_solved := dict_get_default event "total_solved" (VInt 0) in
  response_field (snd (lambda_handler E event)) "statusCode" = Some (VInt 400)
  <-> truthy weak_topics = false \/ is_list weak_topics = false
      \/ is_number total_solved = false.
Proof.
  intros weak_topics total_solved. split.
  - destruct (lambda_handler_outcome E event)
      as [[m Hr] | [(log & e & Hb & ->) | (log & topics & n & r & _ & _ & _ & ->)]];
      [intros _ | discriminate | discriminate].
    unfold lambda_handler, lambda_handler_body in Hr.
    fold weak_topics total_solved in Hr. unfold is_number.
    destruct (truthy weak_topics); [|now left].
    destruct weak_topics; try (right; left; reflexivity).
    destruct (as_number total_solved); [|right; right; reflexivity].
    exfalso.
    destruct (generate_learning_roadmap E l (determine_user_level n))
      as [log [e|r]]; simpl in Hr; discriminate.
  - unfold lambda_handler, lambda_handler_body.
    fold weak_topics total_solved. unfold is_number.
    intros [H|[H|H]].
    + now rewrite H.
    + destruct (truthy weak_topics); [|reflexivity].
      destruct weak_topics; try reflexivity. discriminate.
    + destruct (truthy weak_topics); [|reflexivity].
      destruct weak_topics; try reflexivity.
      destruct (as_number total_solved); [discriminate | reflexivity].
Qed.

End ModelCalls.


Lemma valid_event_calls_model_once_witness :
  fst (lambda_handler (stub_env (inl (Exn ServiceError "ThrottlingException")))
         event_profile)
  = [ (MODEL_ID,
       render (request_body
                 (prompt_text "Intermediate" "Dynamic Programming, Graph Algorithms"))) ].
Proof.
  apply (valid_event_calls_model_once
           (stub_env (inl (Exn ServiceError "ThrottlingException")))
           event_profile [ "Dynamic Programming"; "Graph Algorithms" ] (NInt 150));
    [reflexivity | discriminate | reflexivity].
Defined.

Lemma status_tells_model_calls_witness :
  fst (lambda_handler (stub_env (inr reply_fenced)) event_empty_topics) = []
  /\ List.length (fst (lambda_handler (stub_env (inr reply_fenced)) event_profile))
     = 1%nat.
Proof.
  split.
  - apply (proj1 (status_tells_model_calls (stub_env (inr reply_fenced))
                    event_empty_topics)). reflexivity.
  - apply (proj2 (status_tells_model_calls (stub_env (inr reply_fenced))
                    event_profile)). reflexivity.
Defined.

(* ================================================================= *)
(** ** Answers of the model that are not as expected *)

Section Payload.

Variable E : Env.

(** After validation, with topics that are all [str]: the one call, then
    whatever reading the payload and parsing the reply give. *)
Lemma lambda_handler_after_call event topics n :
  dict_get event "weak_topics" = Some (VList (map VStr topics)) ->
  topics <> [] ->
  as_number (dict_get_default event "total_solved" (VInt 0)) = Some n ->
  let prompt := prompt_text (determine_user_level n) (String.concat ", " topics) in
  let body := json_dumps E (request_body prompt) in
  generate_learning_roadmap E (map VStr topics) (determine_user_level n)
  = ([(MODEL_ID, body)],
     and_then (invoke_model E MODEL_ID body) (fun payload =>
     and_then (loads E payload) (fun response_body =>
     and_then (getitem_key E response_body "content") (fun content =>
     and_then (getitem_index E content 0) (fun first =>
     and_then (getitem_key E first "text") (fun ai_response =>
     parse_ai_response_value E ai_response))))))
  /\ forall log e,
      generate_learning_roadmap E (map VStr topics) (determine_user_level n)
      = (log, inl e) ->
      lambda_handler E event
      = (log, error_response E 500 ("Internal server error: " ++ exn_str e)).
Proof.
  intros Hw Hne Hn prompt body. split.
  - rewrite generate_learning_roadmap_steps.
    now rewrite (build_prompt_all_strings _ _ _ _ (all_strings_map topics)).
  - intros log e Hg. unfold lambda_handler.
    rewrite (lambda_handler_body_validated E event (map VStr topics) n);
      try assumption.
    + now rewrite Hg.
    + unfold dict_get_default. now rewrite Hw.
    + destruct topics; [congruence | discriminate].
Qed.

(** X10. When the model answers with a payload of an unexpected shape, the
    run ends with the status-500 error that names what was missing: the
    parse error of the payload itself (without the "Invalid JSON response
    from AI" prefix, which only a bad reply text gets), the [KeyError] for
    a missing [content] or [text], the [IndexError] for an empty list of
    content blocks. *)
Theorem unexpected_payload_is_reported
    (event : dict) (topics : list string) (n : number) (payload : string) :
  dict_get event "weak_topics" = Some (VList (map VStr topics)) ->
  topics <> [] ->
  as_number (dict_get_default event "total_solved" (VInt 0)) = Some n ->
  invoke_model E MODEL_ID
    (json_dumps E
       (request_body
          (prompt_text (determine_user_level n) (String.concat ", " topics))))
  = inr payload ->
  let failed (message : string) :=
    snd (lambda_handler E event)
    = error_response E 500 ("Internal server error: " ++ message) in
  (forall msg, json_loads E payload = inl msg -> failed msg)
  /\ (forall d,
      json_loads E payload = inr (VDict d) -> dict_get d "content" = None ->
      failed (builtin_message E KeyError (VStr "content")))
  /\ (forall d,
      json_loads E payload = inr (VDict d) ->
      dict_get d "content" = Some (VList []) ->
      failed (builtin_message E IndexError (VList [])))
  /\ (forall d block rest,
      json_loads E payload = inr (VDict d) ->
      dict_get d "content" = Some (VList (VDict block :: rest)) ->
      dict_get block "text" = None ->
      failed (builtin_message E KeyError (VStr "text")))
  /\ (forall d block rest,
      json_loads E payload = inr (VDict d) ->
      dict_get d "content" = Some (VList (VDict block :: rest)) ->
      dict_get block "text" = Some VNone ->
      failed (builtin_message E TypeError VNone)).
Proof.
  intros Hw Hne Hn Hcall failed.
  destruct (lambda_handler_after_call event topics n Hw Hne Hn) as [Hg Hfail].
  cbv zeta in Hg. rewrite Hcall in Hg. unfold and_then at 1 in Hg.
  assert (forall e,
             and_then (loads E payload) (fun response_body =>
             and_then (getitem_key E response_body "content") (fun content =>
             and_then (getitem_index E content 0) (fun first =>
             and_then (getitem_key E first "text") (fun ai_response =>
             parse_ai_response_value E ai_response)))) = inl e ->
             failed (exn_str e)) as Hstep.
  { intros e He. rewrite He in Hg. unfold failed. now rewrite (Hfail _ _ Hg). }
  repeat split.
  - intros msg Hl. apply (Hstep (Exn JSONDecodeError msg)).
    unfold loads. now rewrite Hl.
  - intros d Hl Hc. apply (Hstep (builtin_error E KeyError (VStr "content"))).
    unfold loads. rewrite Hl. simpl. now rewrite Hc.
  - intros d Hl Hc. apply (Hstep (builtin_error E IndexError (VList []))).
    unfold loads. rewrite Hl. simpl. now rewrite Hc.
  - intros d block rest Hl Hc Ht.
    apply (Hstep (builtin_error E KeyError (VStr "text"))).
    unfold loads. rewrite Hl. simpl. rewrite Hc. simpl. now rewrite Ht.
  - intros d block rest Hl Hc Ht.
    apply (Hstep (builtin_error E TypeError VNone)).
    unfold loads. rewrite Hl. simpl. rewrite Hc. simpl. now rewrite Ht.
Qed.

End Payload.

Lemma unexpected_payload_is_reported_witness :
  snd (lambda_handler (payload_env "{}" (inr (VDict []))) event_profile)
  = error_response (payload_env "{}" (inr (VDict []))) 500
      "Internal server error: <KeyError>".
Proof.
  pose proof (unexpected_payload_is_reported
                (payload_env "{}" (inr (VDict []))) event_profile
                [ "Dynamic Programming"; "Graph Algorithms" ] (NInt 150) "{}"
                eq_refl ltac:(discriminate) eq_refl eq_refl) as (_ & H & _).
  exact (H [] eq_refl eq_refl).
Defined.

(* ================================================================= *)
(** ** Order of the levels *)

Section LevelOrder.

(** X11. Classification is monotone: of two numbers with finite values, the
    larger one never gets the lower level. *)
Theorem determine_user_level_monotone (n1 n2 : number) (q1 q2 : Q) :
  number_value n1 = EFin q1 ->
  number_value n2 = EFin q2 ->
  (q1 <= q2)%Q ->
  (level_rank (determine_user_level n1) <= level_rank (determine_user_level n2))%nat.
Proof.
  intros H1 H2 Hle.
  assert (forall c, num_lt n2 c = true -> num_lt n1 c = true) as Hdown.
  { intros c Hc. apply num_lt_below. apply num_lt_below in Hc.
    rewrite H1. rewrite H2 in Hc. simpl in *.
    eapply Qle_lt_trans; eassumption. }
  unfold determine_user_level.
  destruct (num_lt n2 50) eqn:H50.
  - now rewrite (Hdown 50 H50).
  - destruct (num_lt n2 200) eqn:H200.
    + rewrite (Hdown 200 H200). destruct (num_lt n1 50); cbv; lia.
    + destruct (num_lt n1 50); [cbv; lia|].
      destruct (num_lt n1 200); cbv; lia.
Qed.

Lemma determine_user_level_monotone_witness :
  (level_rank (determine_user_level (NInt 49))
   <= level_rank (determine_user_level (NFloat (S754_finite false 399 (-1)))))%nat.
Proof.
  apply (determine_user_level_monotone
           (NInt 49) (NFloat (S754_finite false 399 (-1)))
           (inject_Z 49) (399 # 2) eq_refl eq_refl).
  discriminate.
Defined.

End LevelOrder.

(* ================================================================= *)
(** ** The profile store *)

Section ProfileStore.

Context {Item : Type}.

Variable W : Profiles.World Item.

(** The error response of the store after [k] readings of the clock. *)
Lemma profiles_error_response status msg k log :
  Profiles.error_response W status msg (k, log)
  = ((S k, log),
     VDict [ ("statusCode", VInt status);
             ("body",
               VStr (Profiles.dumps W
                       (VDict [ ("error", VStr msg);
                                ("timestamp", VStr (Profiles.clock W k)) ]))) ]).
Proof. reflexivity. Qed.

(** [store_profile] once the five checks have passed: the clock is read,
    [total_solved] is made an int, the item is written, and each of the
    last two steps may fail. *)
Lemma store_profile_validated event user_id d weak_topics strong_topics n k log :
  dict_get event "user_id" = Some user_id ->
  truthy user_id = true ->
  dict_get event "profile_data" = Some (VDict d) ->
  d <> [] ->
  dict_get d "weak_topics" = Some (VList weak_topics) ->
  dict_get d "strong_topics" = Some (VList strong_topics) ->
  as_number (dict_get_default d "total_solved" VNone) = Some n ->
  Profiles.store_profile W event (k, log)
  = match Profiles.to_int W n with
    | inl msg =>
        Profiles.error_response W 500 ("Failed to store profile: " ++ msg) (S k, log)
    | inr solved =>
        let item :=
          VDict [ ("user_id", user_id);
                  ("weak_topics", VList weak_topics);
                  ("strong_topics", VList strong_topics);
                  ("total_solved", VInt solved);
                  ("created_at", VStr (Profiles.clock W k));
                  ("updated_at", VStr (Profiles.clock W k)) ] in
        match Profiles.put_item W item with
        | inl msg =>
            Profiles.error_response W 500 ("Failed to store profile: " ++ msg)
              (S k, (log ++ [Profiles.Put item])%list)
        | inr _ =>
            ((S k, (log ++ [Profiles.Put item])%list),
             VDict
               [ ("statusCode", VInt 200);
                 ("body",
                   VStr (Profiles.dumps W
                           (VDict [ ("message", VStr "Profile stored successfully");
                                    ("user_id", user_id);
                                    ("profile", item) ]))) ])
        end
    end.
Proof.
  intros Hu Htu Hp Hd Hw Hs Hn.
  assert (dict_get_default event "user_id" VNone = user_id) as Hu'
    by (unfold dict_get_default; now rewrite Hu).
  assert (dict_get_default event "profile_data" VNone = VDict d) as Hp'
    by (unfold dict_get_default; now rewrite Hp).
  assert (dict_get_default d "weak_topics" VNone = VList weak_topics) as Hw'
    by (unfold dict_get_default; now rewrite Hw).
  assert (dict_get_default d "strong_topics" VNone = VList strong_topics) as Hs'
    by (unfold dict_get_default; now rewrite Hs).
  assert (truthy (VDict d) = true) as Htd
    by (destruct d; [congruence | reflexivity]).
  unfold Profiles.store_profile, Profiles.catch.
  rewrite Hu', Hp', Htu, Htd. cbn [negb]. cbv iota.
  unfold Profiles.pbind, Profiles.get_method, Profiles.pret.
  rewrite Hw', Hs', Hn. cbn [is_list negb]. cbv iota.
  unfold Profiles.total, Profiles.utcnow, Profiles.table_put.
  destruct (Profiles.to_int W n) as [msg|solved]; [reflexivity|].
  cbv zeta.
  destruct (Profiles.put_item W _) as [msg|[]]; reflexivity.
Qed.

Lemma run_store_profile event :
  dict_get event "operation" = Some (VStr "store_profile") ->
  Profiles.run W event
  = (snd (fst (Profiles.store_profile W event (O, []))),
     snd (Profiles.store_profile W event (O, []))).
Proof.
  intros H.
  assert (dict_get_default event "operation" VNone = VStr "store_profile") as Hop
    by (unfold dict_get_default; now rewrite H).
  unfold Profiles.run, Profiles.lambda_handler, Profiles.catch, Profiles.total.
  rewrite Hop. cbv zeta.
  change (Profiles.equals_str (VStr "store_profile") "store_profile") with true.
  cbv iota beta.
  now destruct (Profiles.store_profile W event (O, [])) as [[k log] r].
Qed.

Lemma run_get_profile event :
  dict_get event "operation" = Some (VStr "get_profile") ->
  Profiles.run W event
  = (snd (fst (Profiles.get_profile W event (O, []))),
     snd (Profiles.get_profile W event (O, []))).
Proof.
  intros H.
  assert (dict_get_default event "operation" VNone = VStr "get_profile") as Hop
    by (unfold dict_get_default; now rewrite H).
  unfold Profiles.run, Profiles.lambda_handler, Profiles.catch, Profiles.total.
  rewrite Hop. cbv zeta.
  change (Profiles.equals_str (VStr "get_profile") "store_profile") with false.
  change (Profiles.equals_str (VStr "get_profile") "get_profile") with true.
  cbv iota beta.
  now destruct (Profiles.get_profile W event (O, [])) as [[k log] r].
Qed.

(** X12. A store request that passes the five checks, with [total_solved]
    an int or a finite float, writes one item whose [created_at] and
    [updated_at] are the same first reading of the clock and whose
    [total_solved] is an int. When the write succeeds the answer has
    status 200 and echoes exactly the item written; when it raises, the
    answer is the status-500 error "Failed to store profile: ..." stamped
    with a second reading of the clock. *)
Theorem store_profile_writes_what_it_answers
    (event : dict) (user_id : pyvalue) (d : dict)
    (weak_topics strong_topics : list pyvalue) (n : number) (solved : Z) :
  dict_get event "operation" = Some (VStr "store_profile") ->
  dict_get event "user_id" = Some user_id ->
  truthy user_id = true ->
  dict_get event "profile_data" = Some (VDict d) ->
  dict_get d "weak_topics" = Some (VList weak_topics) ->
  dict_get d "strong_topics" = Some (VList strong_topics) ->
  as_number (dict_get_default d "total_solved" VNone) = Some n ->
  Profiles.to_int W n = inr solved ->
  let item :=
    VDict [ ("user_id", user_id);
            ("weak_topics", VList weak_topics);
            ("strong_topics", VList strong_topics);
            ("total_solved", VInt solved);
            ("created_at", VStr (Profiles.clock W 0));
            ("updated_at", VStr (Profiles.clock W 0)) ] in
  (forall u, Profiles.put_item W item = inr u ->
     Profiles.run W event
     = ([Profiles.Put item],
        VDict
          [ ("statusCode", VInt 200);
            ("body",
              VStr (Profiles.dumps W
                      (VDict [ ("message", VStr "Profile stored successfully");
                               ("user_id", user_id);
                               ("profile", item) ]))) ]))
  /\ (forall msg, Profiles.put_item W item = inl msg ->
      Profiles.run W event
      = ([Profiles.Put item],
         VDict
           [ ("statusCode", VInt 500);
             ("body",
               VStr (Profiles.dumps W
                       (VDict [ ("error", VStr ("Failed to store profile: " ++ msg));
                                ("timestamp", VStr (Profiles.clock W 1)) ]))) ])).
Proof.
  intros Hop Hu Htu Hp Hw Hs Hn Hint item.
  assert (d <> []) as Hd by (intros ->; discriminate).
  rewrite (run_store_profile event Hop).
  rewrite (store_profile_validated event user_id d weak_topics strong_topics n
             O [] Hu Htu Hp Hd Hw Hs Hn), Hint.
  cbv zeta. fold item. split.
  - intros u Hput. now rewrite Hput.
  - intros msg Hput. now rewrite Hput.
Qed.

(** Cutting towards zero, on the value of a finite float. *)
Lemma truncate_spec s m e q :
  float_value (S754_finite s m e) = EFin q ->
  let z := Profiles.truncate s m e in
  ((0 <= q)%Q -> (inject_Z z <= q)%Q /\ (q < inject_Z (z + 1))%Q)
  /\ ((q <= 0)%Q -> (inject_Z (z - 1) < q)%Q /\ (q <= inject_Z z)%Q).
Proof.
  unfold float_value, Profiles.truncate.
  destruct (0 <=? e) eqn:He; intros [= <-]; cbv zeta.
  - rewrite <- !Zle_Qle, <- !Zlt_Qlt. split; intros _; split; lia.
  - apply Z.leb_gt in He.
    assert (0 < 2 ^ (- e)) as Hpos by (apply Z.pow_pos_nonneg; lia).
    set (D := 2 ^ (- e)) in *. set (a := signed s m).
    pose proof (Z.quot_rem' a D) as Hqr.
    unfold Qle, Qlt. simpl. rewrite !Z2Pos.id by exact Hpos.
    split; intros Ha.
    + assert (0 <= a) as Ha' by lia.
      pose proof (Z.rem_bound_pos a D Ha' Hpos). split; nia.
    + assert (a <= 0) as Ha' by lia.
      assert (D <> 0) as HD by lia.
      pose proof (Z.rem_nonpos a D HD Ha').
      pose proof (Z.rem_bound_abs a D HD). split; nia.
Qed.

(** X13. A float under [total_solved] passes the check of the store. A
    finite one is written cut towards zero (150.9 as 150, -0.5 as 0); NaN
    and the infinities stop the run at [int()], after the clock was read
    once: nothing is written, and the answer is the status-500 error
    "Failed to store profile: ..." stamped with the second reading. *)
Theorem store_profile_float_total_solved
    (event : dict) (user_id : pyvalue) (d : dict)
    (weak_topics strong_topics : list pyvalue) (f : spec_float) :
  dict_get event "operation" = Some (VStr "store_profile") ->
  dict_get event "user_id" = Some user_id ->
  truthy user_id = true ->
  dict_get event "profile_data" = Some (VDict d) ->
  dict_get d "weak_topics" = Some (VList weak_topics) ->
  dict_get d "strong_topics" = Some (VList strong_topics) ->
  dict_get d "total_solved" = Some (VFloat f) ->
  (forall q, float_value f = EFin q ->
     exists z,
       fst (Profiles.run W event)
       = [ Profiles.Put
             (VDict [ ("user_id", user_id);
                      ("weak_topics", VList weak_topics);
                      ("strong_topics", VList strong_topics);
                      ("total_solved", VInt z);
                      ("created_at", VStr (Profiles.clock W 0));
                      ("updated_at", VStr (Profiles.clock W 0)) ]) ]
       /\ ((0 <= q)%Q -> (inject_Z z <= q)%Q /\ (q < inject_Z (z + 1))%Q)
       /\ ((q <= 0)%Q -> (inject_Z (z - 1) < q)%Q /\ (q <= inject_Z z)%Q))
  /\ ((forall q, float_value f <> EFin q) ->
      exists msg,
        Profiles.run W event
        = ([],
           VDict
             [ ("statusCode", VInt 500);
               ("body",
                 VStr (Profiles.dumps W
                         (VDict [ ("error", VStr ("Failed to store profile: " ++ msg));
                                  ("timestamp", VStr (Profiles.clock W 1)) ]))) ])).
Proof.
  intros Hop Hu Htu Hp Hw Hs Hf.
  assert (d <> []) as Hd by (intros ->; discriminate).
  assert (as_number (dict_get_default d "total_solved" VNone) = Some (NFloat f))
    as Hn by (unfold dict_get_default; now rewrite Hf).
  rewrite (run_store_profile event Hop).
  rewrite (store_profile_validated event user_id d weak_topics strong_topics
             (NFloat f) O [] Hu Htu Hp Hd Hw Hs Hn).
  split.
  - intros q Hq. destruct f as [s|s| |s m e];
      [ | destruct s; discriminate | discriminate | ].
    + exists 0. simpl. destruct (Profiles.put_item W _) as [msg|u]; simpl;
        (split; [reflexivity|]); injection Hq as <-;
        split; intros _; split; reflexivity || discriminate.
    + exists (Profiles.truncate s m e). cbn [Profiles.to_int]. cbv zeta.
      split; [destruct (Profiles.put_item W _) as [msg|u]; reflexivity|].
      exact (truncate_spec s m e q Hq).
  - intros Hnot. destruct f as [s|s| |s m e].
    + now destruct (Hnot 0%Q).
    + eexists. reflexivity.
    + eexists. reflexivity.
    + simpl in Hnot. destruct (0 <=? e); now destruct (Hnot _ eq_refl).
Qed.

(** A truthy value, or a list, under a key read with default [None] is
    bound in the dict. *)
Lemma truthy_get_bound (d : dict) k :
  truthy (dict_get_default d k VNone) = true ->
  dict_get d k = Some (dict_get_default d k VNone).
Proof.
  unfold dict_get_default. destruct (dict_get d k); [reflexivity | discriminate].
Qed.

Lemma list_get_bound (d : dict) k :
  is_list (dict_get_default d k VNone) = true ->
  exists l, dict_get d k = Some (VList l).
Proof.
  unfold dict_get_default. destruct (dict_get d k) as [v|]; [|discriminate].
  destruct v; try discriminate. intros _. now eexists.
Qed.

(** How [store_profile] ends: before anything was written, with a
    status-400 or status-500 error; or with the five checks passed. *)
Lemma store_profile_outcome event :
  (exists status msg k,
      (status = 400 \/ status = 500)
      /\ Profiles.store_profile W event (O, [])
         = ((k, []),
            VDict [ ("statusCode", VInt status);
                    ("body", VStr msg) ]))
  \/ (exists user_id d weak_topics strong_topics n,
      dict_get event "user_id" = Some user_id
      /\ truthy user_id = true
      /\ dict_get event "profile_data" = Some (VDict d)
      /\ d <> []
      /\ dict_get d "weak_topics" = Some (VList weak_topics)
      /\ dict_get d "strong_topics" = Some (VList strong_topics)
      /\ as_number (dict_get_default d "total_solved" VNone) = Some n).
Proof.
  destruct (truthy (dict_get_default event "user_id" VNone)) eqn:Htu.
  2:{ left. exists 400. do 2 eexists. split; [now left|].
      unfold Profiles.store_profile, Profiles.catch. rewrite Htu. reflexivity. }
  destruct (truthy (dict_get_default event "profile_data" VNone)) eqn:Htp.
  2:{ left. exists 400. do 2 eexists. split; [now left|].
      unfold Profiles.store_profile, Profiles.catch. rewrite Htu, Htp.
      reflexivity. }
  destruct (dict_get_default event "profile_data" VNone) as [ |b|z|f|s|l|d]
    eqn:Hpd;
    try (left; exists 500; do 2 eexists; split; [now right|];
         unfold Profiles.store_profile, Profiles.catch;
         rewrite Htu, Hpd, Htp; reflexivity).
  destruct (is_list (dict_get_default d "weak_topics" VNone)) eqn:Hlw.
  2:{ left. exists 400. do 2 eexists. split; [now left|].
      unfold Profiles.store_profile, Profiles.catch. rewrite Htu, Hpd, Htp.
      cbn [negb]. cbv iota.
      unfold Profiles.pbind at 1. unfold Profiles.get_method at 1.
      unfold Profiles.pret at 1. rewrite Hlw. reflexivity. }
  destruct (is_list (dict_get_default d "strong_topics" VNone)) eqn:Hls.
  2:{ left. exists 400. do 2 eexists. split; [now left|].
      unfold Profiles.store_profile, Profiles.catch. rewrite Htu, Hpd, Htp.
      cbn [negb]. cbv iota.
      unfold Profiles.pbind at 1. unfold Profiles.get_method at 1.
      unfold Profiles.pret at 1. rewrite Hlw. cbn [negb]. cbv iota.
      unfold Profiles.pbind at 1. unfold Profiles.get_method at 1.
      unfold Profiles.pret at 1. rewrite Hls. reflexivity. }
  destruct (as_number (dict_get_default d "total_solved" VNone)) as [n|] eqn:Hn.
  2:{ left. exists 400. do 2 eexists. split; [now left|].
      unfold Profiles.store_profile, Profiles.catch. rewrite Htu, Hpd, Htp.
      cbn [negb]. cbv iota.
      unfold Profiles.pbind at 1. unfold Profiles.get_method at 1.
      unfold Profiles.pret at 1. rewrite Hlw. cbn [negb]. cbv iota.
      unfold Profiles.pbind at 1. unfold Profiles.get_method at 1.
      unfold Profiles.pret at 1. rewrite Hls. cbn [negb]. cbv iota.
      unfold Profiles.pbind at 1. unfold Profiles.get_method at 1.
      unfold Profiles.pret at 1. rewrite Hn. reflexivity. }
  right.
  destruct (list_get_bound d _ Hlw) as [wt Hwt].
  destruct (list_get_bound d _ Hls) as [st Hst].
  exists (dict_get_default event "user_id" VNone), d, wt, st, n.
  repeat split; try assumption.
  - now apply truthy_get_bound.
  - rewrite <- Hpd. apply truthy_get_bound. now rewrite Hpd.
  - intros ->. discriminate.
Qed.

(** X14. Whatever the event, a store request touches the table at most
    once, and only to write an item that passed the checks: its [user_id]
    is the truthy one of the event, its two topic fields are lists, its
    [total_solved] is an int, and both timestamps are the first reading of
    the clock. A status-400 answer means nothing was written; a status-200
    answer means the item was. *)
Theorem store_profile_writes_only_checked_items (event : dict) :
  dict_get event "operation" = Some (VStr "store_profile") ->
  (fst (Profiles.run W event) = []
   \/ exists user_id weak_topics strong_topics solved,
       dict_get event "user_id" = Some user_id
       /\ truthy user_id = true
       /\ fst (Profiles.run W event)
          = [ Profiles.Put
                (VDict [ ("user_id", user_id);
                         ("weak_topics", VList weak_topics);
                         ("strong_topics", VList strong_topics);
                         ("total_solved", VInt solved);
                         ("created_at", VStr (Profiles.clock W 0));
                         ("updated_at", VStr (Profiles.clock W 0)) ]) ])
  /\ (response_field (snd (Profiles.run W event)) "statusCode" = Some (VInt 400) ->
      fst (Profiles.run W event) = [])
  /\ (response_field (snd (Profiles.run W event)) "statusCode" = Some (VInt 200) ->
      fst (Profiles.run W event) <> []).
Proof.
  intros Hop. rewrite (run_store_profile event Hop).
  destruct (store_profile_outcome event)
    as [(status & msg & k & Hst & ->)
       | (user_id & d & wt & st & n & Hu & Htu & Hp & Hd & Hw & Hs & Hn)].
  - simpl. split; [now left|]. split; [reflexivity|].
    intros [= H]. destruct Hst; subst; discriminate.
  - rewrite (store_profile_validated event user_id d wt st n O [] Hu Htu Hp Hd
               Hw Hs Hn).
    destruct (Profiles.to_int W n) as [msg|solved].
    + simpl. split; [now left|]. split; [reflexivity | discriminate].
    + cbv zeta. destruct (Profiles.put_item W _) as [msg|u]; simpl.
      * split; [|split; discriminate].
        right. exists user_id, wt, st, solved. now repeat split.
      * split; [|split; discriminate].
        right. exists user_id, wt, st, solved. now repeat split.
Qed.

(** X15. A read request without a truthy [user_id] is refused with status
    400 before the table is touched. Otherwise the table is read once and
    never written: a failing read gives the status-500 error "Failed to
    retrieve profile: ...", a response without an item gives status 404
    naming the user, an item gives status 200 with the serialised body, or
    the same status-500 error when the item cannot be serialised. *)
Theorem get_profile_outcomes (event : dict) (user_id : pyvalue) :
  dict_get event "operation" = Some (VStr "get_profile") ->
  dict_get_default event "user_id" VNone = user_id ->
  let failed (status : Z) (msg : string) :=
    VDict [ ("statusCode", VInt status);
            ("body",
              VStr (Profiles.dumps W
                      (VDict [ ("error", VStr msg);
                               ("timestamp", VStr (Profiles.clock W 0)) ]))) ] in
  (truthy user_id = false ->
   Profiles.run W event = ([], failed 400 "user_id is required"))
  /\ (truthy user_id = true ->
      (forall msg, Profiles.get_item W user_id = inl msg ->
         Profiles.run W event
         = ([Profiles.Get user_id],
            failed 500 ("Failed to retrieve profile: " ++ msg)))
      /\ (Profiles.get_item W user_id = inr None ->
          Profiles.run W event
          = ([Profiles.Get user_id],
             failed 404 ("Profile not found for user_id: "
                           ++ Profiles.py_str W user_id)))
      /\ (forall profile body,
          Profiles.get_item W user_id = inr (Some profile) ->
          Profiles.dumps_retrieved W user_id profile = inr body ->
          Profiles.run W event
          = ([Profiles.Get user_id],
             VDict [ ("statusCode", VInt 200); ("body", VStr body) ]))
      /\ (forall profile msg,
          Profiles.get_item W user_id = inr (Some profile) ->
          Profiles.dumps_retrieved W user_id profile = inl msg ->
          Profiles.run W event
          = ([Profiles.Get user_id],
             failed 500 ("Failed to retrieve profile: " ++ msg)))).
Proof.
  intros Hop Hu failed. rewrite (run_get_profile event Hop).
  unfold Profiles.get_profile, Profiles.catch. rewrite Hu. split.
  - intros ->. reflexivity.
  - intros ->. cbn [negb]. cbv iota.
    unfold Profiles.pbind, Profiles.table_get, Profiles.total, Profiles.pret.
    repeat split.
    + intros msg ->. reflexivity.
    + intros ->. reflexivity.
    + intros profile body -> ->. reflexivity.
    + intros profile msg -> ->. reflexivity.
Qed.

(** X16. An event whose [operation] is absent or is anything but the two
    names is refused with status 400 and the message "Invalid operation:
    ..." showing the value ([None] when absent); the table is not
    touched. *)
Theorem unknown_operation_is_refused (event : dict) (operation : pyvalue) :
  dict_get_default event "operation" VNone = operation ->
  operation <> VStr "store_profile" ->
  operation <> VStr "get_profile" ->
  Profiles.run W event
  = ([],
     VDict [ ("statusCode", VInt 400);
             ("body",
               VStr (Profiles.dumps W
                       (VDict [ ("error",
                                  VStr ("Invalid operation: "
                                          ++ Profiles.py_str W operation));
                                ("timestamp", VStr (Profiles.clock W 0)) ]))) ]).
Proof.
  intros Hop Hs Hg.
  unfold Profiles.run, Profiles.lambda_handler, Profiles.catch. rewrite Hop.
  assert (forall text, operation <> VStr text ->
                       Profiles.equals_str operation text = false) as Hne.
  { intros text H. destruct operation; try reflexivity. simpl.
    apply String.eqb_neq. congruence. }
  rewrite (Hne _ Hs), (Hne _ Hg). reflexivity.
Qed.

End ProfileStore.

Lemma store_profile_writes_what_it_answers_witness :
  Profiles.run (Profiles.stub_world None) (Profiles.event_store (VInt 150))
  = ([ Profiles.Put
         (VDict [ ("user_id", VStr "u1");
                  ("weak_topics", VList [ VStr "Array"; VStr "Dynamic Programming" ]);
                  ("strong_topics", VList [ VStr "Hash Table"; VStr "String" ]);
                  ("total_solved", VInt 150);
                  ("created_at", VStr "2024-05-01T12:00:00");
                  ("updated_at", VStr "2024-05-01T12:00:00") ]) ],
     VDict
       [ ("statusCode", VInt 200);
         ("body",
           VStr (render
                   (VDict
                      [ ("message", VStr "Profile stored successfully");
                        ("user_id", VStr "u1");
                        ("profile",
                          VDict [ ("user_id", VStr "u1");
                                  ("weak_topics",
                                    VList [ VStr "Array"; VStr "Dynamic Programming" ]);
                                  ("strong_topics",
                                    VList [ VStr "Hash Table"; VStr "String" ]);
                                  ("total_solved", VInt 150);
                                  ("created_at", VStr "2024-05-01T12:00:00");
                                  ("updated_at", VStr "2024-05-01T12:00:00") ]) ]))) ]).
Proof.
  refine (proj1 (store_profile_writes_what_it_answers
                   (Profiles.stub_world None) (Profiles.event_store (VInt 150))
                   (VStr "u1")
                   [ ("weak_topics", VList [ VStr "Array"; VStr "Dynamic Programming" ]);
                     ("strong_topics", VList [ VStr "Hash Table"; VStr "String" ]);
                     ("total_solved", VInt 150) ]
                   [ VStr "Array"; VStr "Dynamic Programming" ]
                   [ VStr "Hash Table"; VStr "String" ]
                   (NInt 150) 150
                   eq_refl eq_refl eq_refl eq_refl eq_refl eq_refl eq_refl eq_refl)
                tt eq_refl).
Defined.

Lemma store_profile_float_total_solved_witness :
  (exists z,
      fst (Profiles.run (Profiles.stub_world None)
             (Profiles.event_store (VFloat (S754_finite true 3019 (-1)))))
      = [ Profiles.Put
            (VDict [ ("user_id", VStr "u1");
                     ("weak_topics", VList [ VStr "Array"; VStr "Dynamic Programming" ]);
                     ("strong_topics", VList [ VStr "Hash Table"; VStr "String" ]);
                     ("total_solved", VInt z);
                     ("created_at", VStr "2024-05-01T12:00:00");
                     ("updated_at", VStr "2024-05-01T12:00:00") ]) ]
      /\ (inject_Z (z - 1) < -3019 # 2)%Q /\ (-3019 # 2 <= inject_Z z)%Q)
  /\ exists msg,
      Profiles.run (Profiles.stub_world None) (Profiles.event_store (VFloat S754_nan))
      = ([],
         VDict
           [ ("statusCode", VInt 500);
             ("body",
               VStr (render
                       (VDict [ ("error", VStr ("Failed to store profile: " ++ msg));
                                ("timestamp", VStr "2024-05-01T12:00:01") ]))) ]).
Proof.
  split.
  - destruct (proj1 (store_profile_float_total_solved
                       (Profiles.stub_world None)
                       (Profiles.event_store (VFloat (S754_finite true 3019 (-1))))
                       (VStr "u1")
                       [ ("weak_topics",
                           VList [ VStr "Array"; VStr "Dynamic Programming" ]);
                         ("strong_topics", VList [ VStr "Hash Table"; VStr "String" ]);
                         ("total_solved", VFloat (S754_finite true 3019 (-1))) ]
                       [ VStr "Array"; VStr "Dynamic Programming" ]
                       [ VStr "Hash Table"; VStr "String" ]
                       (S754_finite true 3019 (-1))
                       eq_refl eq_refl eq_refl eq_refl eq_refl eq_refl eq_refl)
                    (-3019 # 2)%Q eq_refl)
      as (z & Hput & _ & Hneg).
    exists z. split; [exact Hput|]. apply Hneg. discriminate.
  - exact (proj2 (store_profile_float_total_solved
                    (Profiles.stub_world None)
                    (Profiles.event_store (VFloat S754_nan))
                    (VStr "u1")
                    [ ("weak_topics",
                        VList [ VStr "Array"; VStr "Dynamic Programming" ]);
                      ("strong_topics", VList [ VStr "Hash Table"; VStr "String" ]);
                      ("total_solved", VFloat S754_nan) ]
                    [ VStr "Array"; VStr "Dynamic Programming" ]
                    [ VStr "Hash Table"; VStr "String" ]
                    S754_nan
                    eq_refl eq_refl eq_refl eq_refl eq_refl eq_refl eq_refl)
                 ltac:(discriminate)).
Defined.

Lemma store_profile_writes_only_checked_items_witness :
  fst (Profiles.run (Profiles.stub_world None)
         [ ("operation", VStr "store_profile"); ("user_id", VStr "u1");
           ("profile_data", VDict [ ("weak_topics", VStr "Array") ]) ])
  = [].
Proof.
  apply (proj1 (proj2 (store_profile_writes_only_checked_items
                         (Profiles.stub_world None)
                         [ ("operation", VStr "store_profile");
                           ("user_id", VStr "u1");
                           ("profile_data", VDict [ ("weak_topics", VStr "Array") ]) ]
                         eq_refl))).
  reflexivity.
Defined.

Lemma get_profile_outcomes_witness :
  Profiles.run (Profiles.stub_world None)
    [ ("operation", VStr "get_profile"); ("user_id", VStr "u1") ]
  = ([ Profiles.Get (VStr "u1") ],
     VDict
       [ ("statusCode", VInt 404);
         ("body",
           VStr (render
                   (VDict [ ("error", VStr "Profile not found for user_id: u1");
                            ("timestamp", VStr "2024-05-01T12:00:00") ]))) ]).
Proof.
  pose proof (get_profile_outcomes (Profiles.stub_world None)
                [ ("operation", VStr "get_profile"); ("user_id", VStr "u1") ]
                (VStr "u1") eq_refl eq_refl) as (_ & H).
  destruct (H eq_refl) as (_ & Hmissing & _).
  exact (Hmissing eq_refl).
Defined.

Lemma unknown_operation_is_refused_witness :
  Profiles.run (Profiles.stub_world None) [ ("user_id", VStr "u1") ]
  = ([],
     VDict
       [ ("statusCode", VInt 400);
         ("body",
           VStr (render
                   (VDict [ ("error", VStr "Invalid operation: None");
                            ("timestamp", VStr "2024-05-01T12:00:00") ]))) ]).
Proof.
  apply (unknown_operation_is_refused (Profiles.stub_world None)
           [ ("user_id", VStr "u1") ] VNone eq_refl); discriminate.
Defined.
